(** * cleaner.py: column addressing, division readers, survey registry
      and the row transformation pass, embedded in Rocq.

    The embedding follows [src/cleaner.py] function by function.  Python
    integers are [Z]; a CSV row is a [list string]; an exception is a
    constructor of [exn] carried by the [result] monad; the module-level
    dictionary [SURVEY_READERS] is a [gmap string SurveyReader]. *)

From Stdlib Require Import ZArith Ascii String List Lia.
From stdpp Require Import base decidable list numbers strings pretty gmap fin_maps.

Local Open Scope string_scope.
Local Open Scope list_scope.
Local Open Scope Z_scope.

(** ** Exceptions and the result monad *)

(** The exceptions the program can raise. *)
Inductive exn : Type :=
| AssertionError
| IndexError
| KeyError (key : string)
| TypeError
| AttributeError
| ZeroDivisionError.

Inductive result (A : Type) : Type :=
| Ok (a : A)
| Raise (e : exn).
Arguments Ok {A} a.
Arguments Raise {A} e.

#[global] Instance result_ret : MRet result := λ A a, Ok a.
#[global] Instance result_bind : MBind result := λ A B f m,
  match m with
  | Ok a => f a
  | Raise e => Raise e
  end.

(** [for x in xs: acc = body(acc, x)], stopping at the first exception. *)
Fixpoint for_each {A S : Type} (body : S → A → result S) (xs : list A) (s : S)
  : result S :=
  match xs with
  | [] => Ok s
  | x :: xs' => s' ← body s x; for_each body xs' s'
  end.

(** A value computed by a module-level statement: the statement runs once,
    when the module is loaded, and an exception there stops the load.  The
    default stands for a module that never came to exist; [import_ok] below
    shows that loading [cleaner.py] raises nothing. *)
Definition at_import {A : Type} (dflt : A) (r : result A) : A :=
  match r with
  | Ok a => a
  | Raise _ => dflt
  end.

(** ** Python sequences *)

Module Py.

(** [l[i]]: an index below zero counts from the end, an index out of
    range raises [IndexError]. *)
Definition index {A : Type} (l : list A) (i : Z) : result A :=
  let at_ (k : Z) :=
    match l !! Z.to_nat k with
    | Some x => Ok x
    | None => Raise IndexError
    end in
  if 0 <=? i then at_ i
  else
    let k := i + Z.of_nat (length l) in
    if 0 <=? k then at_ k else Raise IndexError.

(** [l[0:stop]]: never raises; a negative [stop] counts from the end. *)
Definition slice_to {A : Type} (l : list A) (stop : Z) : list A :=
  if 0 <=? stop then take (Z.to_nat stop) l
  else take (Z.to_nat (stop + Z.of_nat (length l))) l.

(** [l[i] = x]: same indexing rule as [l[i]]. *)
Definition set_item {A : Type} (l : list A) (i : Z) (x : A) : result (list A) :=
  let n := Z.of_nat (length l) in
  let k := if 0 <=? i then i else i + n in
  if (0 <=? k) && (k <? n) then Ok (<[Z.to_nat k := x]> l)
  else Raise IndexError.

(** [range(start, stop)]. *)
Definition range (start stop : Z) : list Z := seqZ start (stop - start).

(** [enumerate(l)], counting from [i]. *)
Fixpoint enumerate_from {A : Type} (i : Z) (l : list A) : list (Z * A) :=
  match l with
  | [] => []
  | x :: l' => (i, x) :: enumerate_from (i + 1) l'
  end.
Definition enumerate {A : Type} (l : list A) : list (Z * A) :=
  enumerate_from 0 l.

(** [ord(c)]. *)
Definition ord (c : ascii) : Z := Z.of_N (N_of_ascii c).

(** [c.upper()] on one character.  Strings here are ASCII text, on which
    [str.upper] maps a-z to A-Z and leaves every other character alone;
    Unicode case mapping of characters above 127 is outside the model. *)
Definition upper_char (c : ascii) : ascii :=
  if (ord "a" <=? ord c) && (ord c <=? ord "z")
  then ascii_of_N (N_of_ascii c - 32)
  else c.

(** [s.upper()], as the list of its characters. *)
Definition upper (s : string) : list ascii :=
  map upper_char (list_ascii_of_string s).

(** [x in l] for a list of integers. *)
Definition contains (l : list Z) (x : Z) : bool := existsb (Z.eqb x) l.

(** [x in l] for a list of strings. *)
Definition contains_str (l : list string) (x : string) : bool :=
  existsb (String.eqb x) l.

End Py.

(** ** Column addressing *)

(** One turn of the loop of [col_to_index]: [(i, c)] comes from
    [enumerate(reversed(col_name))].  The [assert] statement is executed
    (the interpreter does not run with [-O]). *)
Definition col_to_index_step (a_value z_value : Z) (val : Z) (ic : Z * ascii)
  : result Z :=
  let '(i, c) := ic in
  let char_val := Py.ord c in
  if (a_value <=? char_val) && (char_val <=? z_value) then
    let digit := char_val - a_value + 1 in
    Ok (val + digit * 26 ^ i)
  else Raise AssertionError.

Definition col_to_index (col_name : string) : result Z :=
  let col_name := Py.upper col_name in
  let a_value := Py.ord "A" in
  let z_value := Py.ord "Z" in
  val ← for_each (col_to_index_step a_value z_value)
                 (Py.enumerate (rev col_name)) 0;
  Ok (val - 1).

(** [[f(x) for x in xs]]. *)
Fixpoint map_each {A B : Type} (f : A → result B) (xs : list A)
  : result (list B) :=
  match xs with
  | [] => Ok []
  | x :: xs' => y ← f x; ys ← map_each f xs'; Ok (y :: ys)
  end.

Definition ROW_INDEX_SURVEY_TYPE : Z := at_import 0 (col_to_index "K").

(** ** Answer records *)

(** A class made by [collections.namedtuple] and one of its instances.
    Every cell and every division name is a string, so the values of an
    instance are a [list string], in the order of the class's fields. *)
Record namedtuple_class : Type := {
  cls_name : string;
  cls_fields : list string
}.

Record namedtuple : Type := {
  nt_class : namedtuple_class;
  nt_values : list string
}.

(** Calling the class on [args]: one positional argument per field, else
    [TypeError]. *)
Definition new (cls : namedtuple_class) (args : list string)
  : result namedtuple :=
  if (length args =? length (cls_fields cls))%nat
  then Ok {| nt_class := cls; nt_values := args |}
  else Raise TypeError.

(** Position of [attr] among the field names, counted from [i]. *)
Fixpoint field_index (attr : string) (fields : list string) (i : Z)
  : option Z :=
  match fields with
  | [] => None
  | f :: fields' =>
      if (attr =? f)%string then Some i else field_index attr fields' (i + 1)
  end.

(** [getattr(x, attr)]; [x] is [None] for Python's [None]. *)
Definition getattr (x : option namedtuple) (attr : string) : result string :=
  match x with
  | None => Raise AttributeError
  | Some t =>
      match field_index attr (cls_fields (nt_class t)) 0 with
      | Some i => Py.index (nt_values t) i
      | None => Raise AttributeError
      end
  end.

Definition DIVISION_DATA_ARGS : list string :=
  ["eduction"; "growth";
   "virtues"; "character_growth";
   "teacher_communication"; "leadership_communication";
   "welcoming";
   "strengths"; "weaknesses"].
Definition DIVISION_ARG_COUNT : Z := Z.of_nat (length DIVISION_DATA_ARGS).
Definition DivisionAnswers : namedtuple_class :=
  {| cls_name := "DivisionAnswers";
     cls_fields := "division_name" :: DIVISION_DATA_ARGS |}.

Definition WHOLE_SCHOOL_ARGS : list string :=
  ["strengths"; "weaknesses"; "tenure"; "iep_etc"; "minority"].
Definition WHOLE_SCHOOL_ARG_COUNT : Z := Z.of_nat (length WHOLE_SCHOOL_ARGS).
Definition WholeSchoolAnswers : namedtuple_class :=
  {| cls_name := "WholeSchoolAnswers"; cls_fields := WHOLE_SCHOOL_ARGS |}.

Definition GRAMMAR : string := "grammar".
Definition MIDDLE : string := "middle".
Definition HIGH : string := "high".

(** The dictionary is only ever walked with [.items()], in insertion
    order, so it is kept as the list of its items. *)
Definition DIVISION_TO_INDEX : list (string * Z) :=
  [(GRAMMAR, 0); (MIDDLE, 1); (HIGH, 2)].

(** [DivisionAnswers] called on [DIVISION_ARG_COUNT+1] empty strings. *)
Definition empty_division_answers : result namedtuple :=
  new DivisionAnswers (replicate (Z.to_nat (DIVISION_ARG_COUNT + 1)) "").

(** [args.append(row[col])]. *)
Definition append_cell (row : list string) (args : list string) (col : Z)
  : result (list string) :=
  x ← Py.index row col; Ok (args ++ [x]).

(** ** Division readers *)

Module SingleDivisionReader.

Record t : Type := {
  division : string;
  start : Z;
  end_ : Z;
  strengths : Z;
  weaknesses : Z;
  whole_school_cols : list Z
}.

Definition init (division start end_ strengths weaknesses : string)
    (whole_school_cols : list string) : result t :=
  start ← col_to_index start;
  end_ ← col_to_index end_;
  strengths ← col_to_index strengths;
  weaknesses ← col_to_index weaknesses;
  whole_school_cols ← map_each col_to_index whole_school_cols;
  Ok {| division := division; start := start; end_ := end_;
        strengths := strengths; weaknesses := weaknesses;
        whole_school_cols := whole_school_cols |}.

Definition call (self : t) (row : list string)
  : result (list (option namedtuple)) :=
  let division_args := [division self] in
  let whole_args := [] in
  division_args ←
    for_each (λ args col,
                if negb (Py.contains (whole_school_cols self) col)
                then append_cell row args col
                else Ok args)
             (Py.range (start self) (end_ self + 1)) division_args;
  division_args ← append_cell row division_args (strengths self);
  division_args ← append_cell row division_args (weaknesses self);
  whole_args ← for_each (append_cell row) (whole_school_cols self) whole_args;
  whole ← new WholeSchoolAnswers whole_args;
  let out := [None; None; None; Some whole] in
  out ←
    for_each (λ out kv,
                let '(k, v) := kv in
                if (k =? division self)%string then
                  a ← new DivisionAnswers division_args;
                  Py.set_item out v (Some a)
                else
                  a ← empty_division_answers;
                  Py.set_item out v (Some a))
             DIVISION_TO_INDEX out;
  Ok out.

End SingleDivisionReader.

Module MultiDivisionReader.

Record t : Type := {
  divisions : list string;
  start_categorical : Z;
  end_categorical : Z;
  start_open : Z;
  end_open : Z;
  whole_school_cols : list Z
}.

Definition init (divisions : list string)
    (start_categorical end_categorical start_open end_open : string)
    (whole_school_cols : list string) : result t :=
  start_categorical ← col_to_index start_categorical;
  end_categorical ← col_to_index end_categorical;
  start_open ← col_to_index start_open;
  end_open ← col_to_index end_open;
  whole_school_cols ← map_each col_to_index whole_school_cols;
  Ok {| divisions := divisions;
        start_categorical := start_categorical;
        end_categorical := end_categorical;
        start_open := start_open; end_open := end_open;
        whole_school_cols := whole_school_cols |}.

(** One turn of either dealing loop,
    [args[j%len(args)].append(row[i]); j+=1], on the state [(args, j)].
    The subscript is evaluated before [row[i]]. *)
Definition deal_step (row : list string)
    (st : list (list string) * Z) (i : Z) : result (list (list string) * Z) :=
  let '(args, j) := st in
  let n := Z.of_nat (length args) in
  if n =? 0 then Raise ZeroDivisionError
  else
    bucket ← Py.index args (j mod n);
    x ← Py.index row i;
    args ← Py.set_item args (j mod n) (bucket ++ [x]);
    Ok (args, j + 1).

(** [j = 0; for i in range(first, last+1): ...]. *)
Definition deal (row : list string) (args : list (list string))
    (first last : Z) : result (list (list string)) :=
  st ← for_each (deal_step row) (Py.range first (last + 1)) (args, 0);
  Ok (fst st).

(** The inner lists of [division_args] are shared with [args] after
    [args = division_args[:]]; the old [division_args] is not read again
    before it is rebound to [args[0:-1]], and [args[-1]] is not read again
    after [whole_args] is filled, so the lists are passed by value. *)
Definition call (self : t) (row : list string)
  : result (list (option namedtuple)) :=
  let division_args := map (λ d, [d]) (divisions self) in
  division_args ←
    deal row division_args (start_categorical self) (end_categorical self);
  let args := division_args ++ [[]] in
  args ← deal row args (start_open self) (end_open self);
  whole_args ← Py.index args (-1);
  whole_args ← for_each (append_cell row) (whole_school_cols self) whole_args;
  let division_args := Py.slice_to args (-1) in
  whole ← new WholeSchoolAnswers whole_args;
  let out := [None; None; None; Some whole] in
  out ←
    for_each (λ out kv,
                let '(k, v) := kv in
                if Py.contains_str (divisions self) k then
                  for_each (λ out d,
                              d0 ← Py.index d 0;
                              if (k =? d0)%string then
                                a ← new DivisionAnswers d;
                                Py.set_item out v (Some a)
                              else Ok out)
                           division_args out
                else
                  a ← empty_division_answers;
                  Py.set_item out v (Some a))
             DIVISION_TO_INDEX out;
  Ok out.

End MultiDivisionReader.

(** The two reader classes share one interface: an instance is called on
    a row. *)
Class RowReader (R : Type) : Type :=
  call : R → list string → result (list (option namedtuple)).

#[global] Instance single_reader : RowReader SingleDivisionReader.t :=
  SingleDivisionReader.call.
#[global] Instance multi_reader : RowReader MultiDivisionReader.t :=
  MultiDivisionReader.call.

(** A reader object of either class. *)
Inductive Reader : Type :=
| Single (r : SingleDivisionReader.t)
| Multi (r : MultiDivisionReader.t).

#[global] Instance any_reader : RowReader Reader := λ r row,
  match r with
  | Single s => call s row
  | Multi m => call m row
  end.

(** ** Survey layout registry *)

Record SurveyReader : Type := {
  survey_type : string;
  reader : Reader
}.

(** The list the dictionary comprehension runs over. *)
Definition SURVEY_READERS_items : result (list SurveyReader) :=
  g ← SingleDivisionReader.init GRAMMAR "L" "R" "S" "U"
        ["T"; "V"; "ED"; "EE"; "EF"];
  m ← SingleDivisionReader.init MIDDLE "CN" "CT" "CU" "CW"
        ["CV"; "CX"; "ED"; "EE"; "EF"];
  h ← SingleDivisionReader.init HIGH "DS" "DY" "DZ" "EB"
        ["EA"; "EC"; "ED"; "EE"; "EF"];
  gm ← MultiDivisionReader.init [GRAMMAR; MIDDLE] "W" "AJ" "AK" "AP"
        ["ED"; "EE"; "EF"];
  gh ← MultiDivisionReader.init [GRAMMAR; HIGH] "AQ" "BD" "BE" "BJ"
        ["ED"; "EE"; "EF"];
  gmh ← MultiDivisionReader.init [GRAMMAR; MIDDLE; HIGH] "BK" "CE" "CF" "CM"
        ["ED"; "EE"; "EF"];
  mh ← MultiDivisionReader.init [MIDDLE; HIGH] "CY" "DL" "DM" "DR"
        ["ED"; "EE"; "EF"];
  Ok [ {| survey_type := "Grammar School only (K-6)"; reader := Single g |};
       {| survey_type := "Middle School only (7-8)"; reader := Single m |};
       {| survey_type := "High School only (9-12)"; reader := Single h |};
       {| survey_type := "Grammar and Middle School only (K-6 and 7-8)";
          reader := Multi gm |};
       {| survey_type := "Grammar and High School only (K-6 and 9-12)";
          reader := Multi gh |};
       {| survey_type :=
            "Grammar, Middle, and High School (K-6, 7-8, and 9-12)";
          reader := Multi gmh |};
       {| survey_type := "Middle and High School only (7-8 and 9-12)";
          reader := Multi mh |} ].

(** [{x.survey_type : x for x in items}]: a later item replaces an earlier
    one with the same key. *)
Definition dict_by_survey_type (items : list SurveyReader)
  : gmap string SurveyReader :=
  foldl (λ d x, <[survey_type x := x]> d) ∅ items.

Definition SURVEY_READERS : gmap string SurveyReader :=
  at_import ∅ (items ← SURVEY_READERS_items; Ok (dict_by_survey_type items)).

(** [d[key]]. *)
Definition dict_get (d : gmap string SurveyReader) (key : string)
  : result SurveyReader :=
  match d !! key with
  | Some x => Ok x
  | None => Raise (KeyError key)
  end.

(** ** Row transformation pass *)

Module Cleaner.

Definition make_first_row (row : list string) : result (list string) :=
  k ← col_to_index "K";
  let out := Py.slice_to row (k + 1) in
  let out := out ++ replicate (Z.to_nat DIVISION_ARG_COUNT) "grammar" in
  let out := out ++ replicate (Z.to_nat DIVISION_ARG_COUNT) "middle" in
  let out := out ++ replicate (Z.to_nat DIVISION_ARG_COUNT) "high" in
  let out := out ++ replicate (Z.to_nat WHOLE_SCHOOL_ARG_COUNT) "whole" in
  Ok out.

Definition make_second_row (row : list string) : result (list string) :=
  k ← col_to_index "K";
  let out := Py.slice_to row (k + 1) in
  let out := out ++ DIVISION_DATA_ARGS in
  let out := out ++ DIVISION_DATA_ARGS in
  let out := out ++ DIVISION_DATA_ARGS in
  let out := out ++ WHOLE_SCHOOL_ARGS in
  Ok out.

(** [output_row.append(getattr(answers, attr))]. *)
Definition append_attr (answers : option namedtuple)
    (output_row : list string) (attr : string) : result (list string) :=
  x ← getattr answers attr; Ok (output_row ++ [x]).

(** The [else] branch of the loop body: a data row. *)
Definition make_data_row (row : list string) : result (list string) :=
  survey_type ← Py.index row ROW_INDEX_SURVEY_TYPE;
  entry ← dict_get SURVEY_READERS survey_type;
  processed_row ← call (reader entry) row;
  k ← col_to_index "K";
  let output_row := Py.slice_to row (k + 1) in
  output_row ←
    for_each (λ output_row answers,
                for_each (append_attr answers) DIVISION_DATA_ARGS output_row)
             (Py.slice_to processed_row 3) output_row;
  output_row ←
    for_each (λ output_row attr,
                whole ← Py.index processed_row 3;
                append_attr whole output_row attr)
             WHOLE_SCHOOL_ARGS output_row;
  Ok output_row.

(** The body of the loop over [enumerate(reader)]: the row handed to
    [writer.writerow]. *)
Definition process_row (i : Z) (row : list string) : result (list string) :=
  if i =? 0 then make_first_row row
  else if i =? 1 then make_second_row row
  else make_data_row row.

(** The loop of [__init__], on the rows the CSV reader yields from index
    [i] on: the rows written to [out.csv] so far and, if the pass stopped,
    the exception that left the loop. *)
Fixpoint run (i : Z) (rows : list (list string))
    (written : list (list string)) : list (list string) * option exn :=
  match rows with
  | [] => (written, None)
  | row :: rows' =>
      match process_row i row with
      | Ok output_row => run (i + 1) rows' (written ++ [output_row])
      | Raise e => (written, Some e)
      end
  end.

Definition init (rows : list (list string))
  : list (list string) * option exn :=
  run 0 rows [].

End Cleaner.

(** ** Vocabulary of the specification *)

(** A letter A-Z or a-z. *)
Definition is_letter (c : ascii) : bool :=
  ((Py.ord "A" <=? Py.ord c) && (Py.ord c <=? Py.ord "Z"))
  || ((Py.ord "a" <=? Py.ord c) && (Py.ord c <=? Py.ord "z")).

(** A letter A-Z. *)
Definition is_upper_letter (c : ascii) : bool :=
  (Py.ord "A" <=? Py.ord c) && (Py.ord c <=? Py.ord "Z").

(** A label made of letters only. *)
Definition all_letters (label : string) : bool :=
  forallb is_letter (list_ascii_of_string label).

(** A spreadsheet column label: one or more letters, in either case. *)
Definition is_label (label : string) : bool :=
  negb (label =? "")%string && all_letters label.

(** The value of a letter, A=1 ... Z=26, in either case. *)
Definition letter_value (c : ascii) : Z :=
  if (Py.ord "A" <=? Py.ord c) && (Py.ord c <=? Py.ord "Z")
  then Py.ord c - Py.ord "A" + 1
  else if (Py.ord "a" <=? Py.ord c) && (Py.ord c <=? Py.ord "z")
  then Py.ord c - Py.ord "a" + 1
  else 0.

(** The bijective base-26 numeral the specification describes: the letter
    at [position_from_right] p contributes [letter_value * 26^p]. *)
Fixpoint bijective_value (letters : list ascii) : Z :=
  match letters with
  | [] => 0
  | c :: rest =>
      letter_value c * 26 ^ Z.of_nat (length rest) + bijective_value rest
  end.

Definition bijective_base26 (label : string) : Z :=
  bijective_value (list_ascii_of_string label).

(** Dictionary order on two words of the same length. *)
Fixpoint lex_ltb (a b : list Z) : bool :=
  match a, b with
  | x :: a', y :: b' => (x <? y) || ((x =? y) && lex_ltb a' b')
  | _, _ => false
  end.

(** Spreadsheet column order: A, ..., Z, AA, ..., AZ, BA, ..., ZZ, AAA, ...:
    a shorter label comes first, labels of one length are in dictionary
    order, and case is ignored. *)
Definition sheet_ltb (a b : string) : bool :=
  let a := map letter_value (list_ascii_of_string a) in
  let b := map letter_value (list_ascii_of_string b) in
  (length a <? length b)%nat
  || ((length a =? length b)%nat && lex_ltb a b).

(** The items of the registry, once the module is loaded. *)
Definition registry_items : list SurveyReader :=
  at_import [] SURVEY_READERS_items.

(** [entry] is one of the registered layouts. *)
Definition registered (entry : SurveyReader) : Prop :=
  SURVEY_READERS !! survey_type entry = Some entry.

(** The survey-type literals of the registry, in the order of the source. *)
Definition registered_literals : list string :=
  map survey_type registry_items.

(** Every column index a reader's configuration names. *)
Definition referenced_columns (r : Reader) : list Z :=
  match r with
  | Single s =>
      Py.range (SingleDivisionReader.start s) (SingleDivisionReader.end_ s + 1)
      ++ [SingleDivisionReader.strengths s; SingleDivisionReader.weaknesses s]
      ++ SingleDivisionReader.whole_school_cols s
  | Multi m =>
      Py.range (MultiDivisionReader.start_categorical m)
               (MultiDivisionReader.end_categorical m + 1)
      ++ Py.range (MultiDivisionReader.start_open m)
                  (MultiDivisionReader.end_open m + 1)
      ++ MultiDivisionReader.whole_school_cols m
  end.

Definition max_column (r : Reader) : Z := foldr Z.max 0 (referenced_columns r).

(** The row has a cell at every column the layout references. *)
Definition long_enough (r : Reader) (row : list string) : Prop :=
  max_column r < Z.of_nat (length row).

(** The divisions a reader is configured for. *)
Definition configured_divisions (r : Reader) : list string :=
  match r with
  | Single s => [SingleDivisionReader.division s]
  | Multi m => MultiDivisionReader.divisions m
  end.

(** A [DivisionAnswers] record: a name and 9 data fields, read back by
    [getattr] in the order of [DIVISION_DATA_ARGS]. *)
Definition is_division_answers (d : namedtuple) : Prop :=
  nt_class d = DivisionAnswers
  ∧ ∃ name data,
      nt_values d = name :: data
      ∧ length data = 9%nat
      ∧ map_each (getattr (Some d)) DIVISION_DATA_ARGS = Ok data.

(** A [WholeSchoolAnswers] record: 5 fields, read back by [getattr] in the
    order of [WHOLE_SCHOOL_ARGS]. *)
Definition is_whole_school_answers (w : namedtuple) : Prop :=
  nt_class w = WholeSchoolAnswers
  ∧ length (nt_values w) = 5%nat
  ∧ map_each (getattr (Some w)) WHOLE_SCHOOL_ARGS = Ok (nt_values w).

(** [d[key]] on the items of a dictionary. *)
Fixpoint assoc (key : string) (items : list (string * Z)) : option Z :=
  match items with
  | [] => None
  | (k, v) :: items' => if (key =? k)%string then Some v else assoc key items'
  end.

(** The component of a reader's result that belongs to division [d]. *)
Definition division_answers (out : list (option namedtuple)) (d : string)
  : result (option namedtuple) :=
  match assoc d DIVISION_TO_INDEX with
  | Some v => Py.index out v
  | None => Raise (KeyError d)
  end.

(** Data field number [q], in canonical order, of division [d]'s record. *)
Definition division_field (out : list (option namedtuple)) (d : string)
    (q : Z) : result string :=
  answers ← division_answers out d;
  field ← Py.index DIVISION_DATA_ARGS q;
  getattr answers field.

(** Field number [q], in canonical order, of the whole-school record. *)
Definition whole_school_field (out : list (option namedtuple)) (q : Z)
  : result string :=
  whole ← Py.index out 3;
  field ← Py.index WHOLE_SCHOOL_ARGS q;
  getattr whole field.

(** The cell at range-relative offset [i] of a range that starts at column
    [first]. *)
Definition cell_at (row : list string) (first i : Z) : string :=
  nth (Z.to_nat (first + i)) row "".

(** Round-robin distribution of the [len] columns from [first] on: bucket
    number [k] gains, in column order, the cells whose offset is [k] modulo
    the number of buckets. *)
Definition dealt (row : list string) (args : list (list string))
    (first len : Z) : list (list string) :=
  imap (λ k bucket,
          bucket
          ++ map (cell_at row first)
                 (filter (λ i, i `mod` Z.of_nat (length args) = Z.of_nat k)
                         (seqZ 0 len)))
       args.

(** The field of a reader's result in which the categorical column at
    range-relative offset [i] lands: field number [i / n] of division number
    [i mod n], for [n] configured divisions. *)
Definition categorical_field (m : MultiDivisionReader.t)
    (out : list (option namedtuple)) (i : Z) : result string :=
  let n := Z.of_nat (length (MultiDivisionReader.divisions m)) in
  d ← Py.index (MultiDivisionReader.divisions m) (i `mod` n);
  division_field out d (i / n).

(** The field in which the open-ended column at range-relative offset [i]
    lands.  There are [n + 1] buckets; bucket [i mod (n + 1)] is division
    number [i mod (n + 1)] when that is below [n], where the cell follows
    the division's categorical fields, and the shared whole-school bucket
    otherwise. *)
Definition open_ended_field (m : MultiDivisionReader.t)
    (out : list (option namedtuple)) (i : Z) : result string :=
  let n := Z.of_nat (length (MultiDivisionReader.divisions m)) in
  let categorical_count :=
    (MultiDivisionReader.end_categorical m + 1
     - MultiDivisionReader.start_categorical m) / n in
  if i `mod` (n + 1) <? n then
    d ← Py.index (MultiDivisionReader.divisions m) (i `mod` (n + 1));
    division_field out d (categorical_count + i / (n + 1))
  else whole_school_field out (i / (n + 1)).

(** The division field names as the specification spells them. *)
Definition spec_division_fields : list string :=
  ["education"; "growth"; "virtues"; "character_growth";
   "teacher_communication"; "leadership_communication"; "welcoming";
   "strengths"; "weaknesses"].

(** The second header row the specification describes. *)
Definition spec_second_row (row : list string) : list string :=
  take 11 row
  ++ spec_division_fields ++ spec_division_fields ++ spec_division_fields
  ++ ["strengths"; "weaknesses"; "tenure"; "iep_etc"; "minority"].

(** *** Sample data *)

(** A row of 136 cells with [ty] in the survey-type column and the column
    number in every cell after it. *)
Definition sample_row (ty : string) : list string :=
  replicate 10 "" ++ [ty] ++ map (λ k : nat, pretty k) (seq 11 125).

Definition grammar_middle_reader : MultiDivisionReader.t :=
  {| MultiDivisionReader.divisions := [GRAMMAR; MIDDLE];
     MultiDivisionReader.start_categorical := 22;
     MultiDivisionReader.end_categorical := 35;
     MultiDivisionReader.start_open := 36;
     MultiDivisionReader.end_open := 41;
     MultiDivisionReader.whole_school_cols := [133; 134; 135] |}.

Definition grammar_middle_entry : SurveyReader :=
  {| survey_type := "Grammar and Middle School only (K-6 and 7-8)";
     reader := Multi grammar_middle_reader |}.

Definition grammar_only_entry : SurveyReader :=
  {| survey_type := "Grammar School only (K-6)";
     reader :=
       Single {| SingleDivisionReader.division := GRAMMAR;
                 SingleDivisionReader.start := 11;
                 SingleDivisionReader.end_ := 17;
                 SingleDivisionReader.strengths := 18;
                 SingleDivisionReader.weaknesses := 20;
                 SingleDivisionReader.whole_school_cols :=
                   [19; 21; 133; 134; 135] |} |}.

(** *** Further vocabulary *)

(** A result that is a value or the exception [e], and no other
    exception. *)
Definition raises_only {A : Type} (e : exn) (r : result A) : Prop :=
  match r with
  | Ok _ => True
  | Raise e' => e' = e
  end.

(** The two rows hold the same cell, or both hold none, at every column of
    [cols]. *)
Definition same_cells (cols : list Z) (row1 row2 : list string) : Prop :=
  ∀ c, c ∈ cols → Py.index row1 c = Py.index row2 c.

(** Every column of [cols] is a position of the row. *)
Definition columns_in_row (cols : list Z) (row : list string) : Prop :=
  Forall (λ c, 0 ≤ c < Z.of_nat (length row)) cols.

(** The columns of the categorical range that a single-division reader
    reads into the division's record. *)
Definition categorical_columns (s : SingleDivisionReader.t) : list Z :=
  List.filter (λ c, negb (Py.contains (SingleDivisionReader.whole_school_cols s) c))
              (Py.range (SingleDivisionReader.start s)
                        (SingleDivisionReader.end_ s + 1)).

(** A data row the pass can process: its survey type is registered and it
    has a cell at every column of that layout. *)
Definition well_formed_data_row (row : list string) : Prop :=
  ∃ entry,
    registered entry
    ∧ Py.index row ROW_INDEX_SURVEY_TYPE = Ok (survey_type entry)
    ∧ long_enough (reader entry) row.

(** The number of offsets below [len] that are [k] modulo [n]. *)
Definition dealt_count (n k len : Z) : Z := (len + n - 1 - k) / n.


(** The record of a division the layout does not address. *)
Definition empty_record : namedtuple :=
  {| nt_class := DivisionAnswers; nt_values := replicate 10 "" |}.

(** The record a single-division reader builds for its division: the
    division's name, the cells of its categorical columns in column order,
    then the strengths and the weaknesses cell. *)
Definition single_division_record (s : SingleDivisionReader.t)
    (row : list string) : namedtuple :=
  {| nt_class := DivisionAnswers;
     nt_values :=
       SingleDivisionReader.division s
       :: map (cell_at row 0)
              (categorical_columns s
               ++ [SingleDivisionReader.strengths s;
                   SingleDivisionReader.weaknesses s]) |}.

(** The whole-school record a single-division reader builds: the cells of
    the whole-school columns in configured order. *)
Definition single_whole_record (s : SingleDivisionReader.t)
    (row : list string) : namedtuple :=
  {| nt_class := WholeSchoolAnswers;
     nt_values :=
       map (cell_at row 0) (SingleDivisionReader.whole_school_cols s) |}.

(** The component of a single-division reader's result for division [k]. *)
Definition single_slot (s : SingleDivisionReader.t) (row : list string)
    (k : string) : option namedtuple :=
  Some (if (k =? SingleDivisionReader.division s)%string
        then single_division_record s row
        else empty_record).

(** [d] is one of the keys of [DIVISION_TO_INDEX]. *)
Definition known_division (d : string) : bool :=
  existsb (λ kv : string * Z, (fst kv =? d)%string) DIVISION_TO_INDEX.

(** Every column a single-division reader reads. *)
Definition single_read_columns (s : SingleDivisionReader.t) : list Z :=
  categorical_columns s
  ++ [SingleDivisionReader.strengths s; SingleDivisionReader.weaknesses s]
  ++ SingleDivisionReader.whole_school_cols s.

(** The labels of the first header row after the leading columns: one
    block of 9 per division, in the order of the divisions' indices, and 5
    for the whole school. *)
Definition first_header_labels : list string :=
  flat_map (λ kv : string * Z, replicate 9 (fst kv)) DIVISION_TO_INDEX
  ++ replicate 5 "whole".

(** *** Further sample data *)

Definition middle_only_reader : SingleDivisionReader.t :=
  {| SingleDivisionReader.division := MIDDLE;
     SingleDivisionReader.start := 91;
     SingleDivisionReader.end_ := 97;
     SingleDivisionReader.strengths := 98;
     SingleDivisionReader.weaknesses := 100;
     SingleDivisionReader.whole_school_cols := [99; 101; 133; 134; 135] |}.

(** A layout with three whole-school columns instead of five. *)
Definition three_whole_columns_reader : SingleDivisionReader.t :=
  {| SingleDivisionReader.division := GRAMMAR;
     SingleDivisionReader.start := 11;
     SingleDivisionReader.end_ := 17;
     SingleDivisionReader.strengths := 18;
     SingleDivisionReader.weaknesses := 20;
     SingleDivisionReader.whole_school_cols := [133; 134; 135] |}.

(** The record of a reader's result that a first-header label names. *)
Definition record_for (out : list (option namedtuple)) (label : string)
  : result (option namedtuple) :=
  if (label =? "whole")%string then Py.index out 3
  else division_answers out label.

(** Two header rows and two data rows. *)
Definition sample_table : list (list string) :=
  [replicate 11 "h"; replicate 11 "q";
   sample_row "Grammar and Middle School only (K-6 and 7-8)";
   sample_row "Grammar School only (K-6)"].

(** ** Column addressing: proofs *)

Section ColumnAddressing.

Lemma for_each_app {A S : Type} (body : S → A → result S) xs ys s :
  for_each body (xs ++ ys) s = s' ← for_each body xs s; for_each body ys s'.
Proof.
  revert s. induction xs as [|x xs IH]; intros s; simpl; [done|].
  destruct (body s x) as [s'|e]; simpl; [apply IH | done].
Qed.

Lemma enumerate_from_app {A : Type} (i : Z) (xs ys : list A) :
  Py.enumerate_from i (xs ++ ys)
  = Py.enumerate_from i xs
    ++ Py.enumerate_from (i + Z.of_nat (length xs)) ys.
Proof.
  revert i. induction xs as [|x xs IH]; intros i; simpl.
  - by rewrite Z.add_0_r.
  - rewrite IH. do 3 f_equal. lia.
Qed.

Lemma enumerate_from_length {A : Type} (i : Z) (xs : list A) :
  length (Py.enumerate_from i xs) = length xs.
Proof. revert i. induction xs; intros; simpl; auto. Qed.

(** Case normalisation sends a letter into A-Z and keeps its value. *)
Lemma upper_char_letter c :
  is_letter c = true →
  is_upper_letter (Py.upper_char c) = true
  ∧ Py.ord (Py.upper_char c) - Py.ord "A" + 1 = letter_value c.
Proof.
  destruct c as [[] [] [] [] [] [] [] []]; vm_compute; intros H;
    (discriminate H || (split; reflexivity)).
Qed.

(** It sends nothing else into A-Z. *)
Lemma upper_char_not_letter c :
  is_letter c = false → is_upper_letter (Py.upper_char c) = false.
Proof.
  destruct c as [[] [] [] [] [] [] [] []]; vm_compute; intros H;
    (discriminate H || reflexivity).
Qed.

Lemma letter_value_range c : is_letter c = true → 1 ≤ letter_value c ≤ 26.
Proof.
  destruct c as [[] [] [] [] [] [] [] []]; vm_compute; intros H;
    (discriminate H || (split; discriminate)).
Qed.

Lemma step_upper_letter val i c :
  is_letter c = true →
  col_to_index_step (Py.ord "A") (Py.ord "Z") val (i, Py.upper_char c)
  = Ok (val + letter_value c * 26 ^ i).
Proof.
  intros Hc. destruct (upper_char_letter c Hc) as [Hu Hv].
  unfold col_to_index_step. unfold is_upper_letter in Hu.
  rewrite Hu. by rewrite Hv.
Qed.

Lemma step_not_letter val i c :
  is_upper_letter c = false →
  col_to_index_step (Py.ord "A") (Py.ord "Z") val (i, c)
  = Raise AssertionError.
Proof.
  intros Hc. unfold col_to_index_step. unfold is_upper_letter in Hc.
  by rewrite Hc.
Qed.

(** The loop over the reversed label adds up the weighted letter values. *)
Lemma loop_letters (l : list ascii) : ∀ i val,
  0 ≤ i →
  forallb is_letter l = true →
  for_each (col_to_index_step (Py.ord "A") (Py.ord "Z"))
           (Py.enumerate_from i (rev (map Py.upper_char l))) val
  = Ok (val + 26 ^ i * bijective_value l).
Proof.
  induction l as [|c r IH]; intros i val Hi Hl.
  - simpl. f_equal. lia.
  - simpl in Hl. apply andb_prop in Hl as [Hc Hr].
    cbn [map rev]. rewrite enumerate_from_app, for_each_app.
    rewrite (IH i val Hi Hr). cbn [mbind result_bind].
    cbn [Py.enumerate_from for_each].
    rewrite step_upper_letter by done. cbn [mbind result_bind].
    f_equal. rewrite length_rev, length_map.
    cbn [bijective_value]. rewrite Z.pow_add_r by lia. lia.
Qed.

(** A character outside A-Z stops the loop with the assertion. *)
Lemma loop_bad_char (xs : list ascii) : ∀ i val,
  existsb (λ c, negb (is_upper_letter c)) xs = true →
  for_each (col_to_index_step (Py.ord "A") (Py.ord "Z"))
           (Py.enumerate_from i xs) val
  = Raise AssertionError.
Proof.
  induction xs as [|c xs IH]; intros i val Hx; [discriminate|].
  simpl in Hx. cbn [Py.enumerate_from for_each].
  destruct (is_upper_letter c) eqn:Hc.
  - unfold col_to_index_step. unfold is_upper_letter in Hc. rewrite Hc.
    cbn [mbind result_bind]. apply IH. exact Hx.
  - by rewrite step_not_letter.
Qed.

Lemma col_to_index_letters label :
  all_letters label = true →
  col_to_index label = Ok (bijective_base26 label - 1).
Proof.
  intros Hl. unfold col_to_index, Py.enumerate, Py.upper.
  rewrite loop_letters by (done || lia).
  cbn [mbind result_bind]. unfold bijective_base26. f_equal. lia.
Qed.

Lemma existsb_rev {A : Type} (p : A → bool) (l : list A) :
  existsb p (rev l) = existsb p l.
Proof.
  induction l as [|x l IH]; [done|].
  simpl. rewrite existsb_app, IH. simpl. rewrite orb_false_r.
  apply orb_comm.
Qed.

Lemma not_letter_bad_char (l : list ascii) :
  forallb is_letter l = false →
  existsb (λ c, negb (is_upper_letter c)) (map Py.upper_char l) = true.
Proof.
  induction l as [|c l IH]; [discriminate|]. simpl.
  destruct (is_letter c) eqn:Hc; simpl.
  - intros Hl. rewrite (IH Hl). apply orb_true_r.
  - intros _. by rewrite (upper_char_not_letter c Hc).
Qed.

Lemma col_to_index_bad_char label :
  existsb (λ c, negb (is_upper_letter c)) (Py.upper label) = true →
  col_to_index label = Raise AssertionError.
Proof.
  intros Hb. unfold col_to_index, Py.enumerate.
  rewrite loop_bad_char; [done|]. by rewrite existsb_rev.
Qed.

(** Bounds on the value of a word of [n] letters:
    [(26^n - 1)/25 ≤ value ≤ 26 (26^n - 1)/25]. *)
Lemma bijective_value_bounds (l : list ascii) :
  forallb is_letter l = true →
  26 ^ Z.of_nat (length l) - 1 ≤ 25 * bijective_value l
  ∧ 25 * bijective_value l ≤ 26 * (26 ^ Z.of_nat (length l) - 1).
Proof.
  induction l as [|c r IH]; intros Hl; [simpl; lia|].
  simpl in Hl. apply andb_prop in Hl as [Hc Hr].
  specialize (IH Hr). pose proof (letter_value_range c Hc) as Hv.
  cbn [bijective_value length]. rewrite Nat2Z.inj_succ, Z.pow_succ_r by lia.
  assert (0 < 26 ^ Z.of_nat (length r)) by (apply Z.pow_pos_nonneg; lia).
  nia.
Qed.

Lemma shorter_label_smaller (a b : list ascii) :
  forallb is_letter a = true → forallb is_letter b = true →
  (length a < length b)%nat →
  bijective_value a < bijective_value b.
Proof.
  intros Ha Hb Hlen.
  pose proof (bijective_value_bounds a Ha) as [_ Hua].
  pose proof (bijective_value_bounds b Hb) as [Hlb _].
  assert (26 ^ Z.of_nat (S (length a)) ≤ 26 ^ Z.of_nat (length b))
    by (apply Z.pow_le_mono_r; lia).
  rewrite Nat2Z.inj_succ, Z.pow_succ_r in * by lia. lia.
Qed.

Lemma lex_label_smaller (a : list ascii) : ∀ b,
  forallb is_letter a = true → forallb is_letter b = true →
  length a = length b →
  lex_ltb (map letter_value a) (map letter_value b) = true →
  bijective_value a < bijective_value b.
Proof.
  induction a as [|x a IH]; intros [|y b] Ha Hb Hlen Hlt;
    try discriminate.
  simpl in Ha, Hb, Hlen, Hlt.
  apply andb_prop in Ha as [Hx Ha]. apply andb_prop in Hb as [Hy Hb].
  injection Hlen as Hlen.
  pose proof (bijective_value_bounds a Ha) as [Hla Hua].
  pose proof (bijective_value_bounds b Hb) as [Hlb Hub].
  pose proof (letter_value_range x Hx). pose proof (letter_value_range y Hy).
  cbn [bijective_value]. rewrite <- Hlen in *.
  assert (0 < 26 ^ Z.of_nat (length a)) by (apply Z.pow_pos_nonneg; lia).
  apply orb_prop in Hlt as [Hlt|Hlt].
  - apply Z.ltb_lt in Hlt. nia.
  - apply andb_prop in Hlt as [Heq Hlt]. apply Z.eqb_eq in Heq.
    specialize (IH b Ha Hb Hlen Hlt). rewrite Heq. lia.
Qed.

Lemma sheet_order_value a b :
  all_letters a = true → all_letters b = true →
  sheet_ltb a b = true →
  bijective_base26 a < bijective_base26 b.
Proof.
  unfold all_letters, sheet_ltb, bijective_base26. intros Ha Hb Hlt.
  rewrite !length_map in Hlt.
  apply orb_prop in Hlt as [Hlt|Hlt].
  - apply shorter_label_smaller; try done. by apply Nat.ltb_lt.
  - apply andb_prop in Hlt as [Hlen Hlt].
    apply lex_label_smaller; try done. by apply Nat.eqb_eq.
Qed.

End ColumnAddressing.

(** ** Sequences and loops: proofs *)

Lemma bind_Ok {A B : Type} (m : result A) (f : A → result B) (y : B) :
  (x ← m; f x) = Ok y → ∃ x, m = Ok x ∧ f x = Ok y.
Proof. destruct m as [x|e]; simpl; intros H; [eauto | discriminate]. Qed.

Lemma index_lookup {A : Type} (l : list A) (i : Z) (x : A) :
  0 ≤ i → l !! Z.to_nat i = Some x → Py.index l i = Ok x.
Proof.
  intros Hi Hx. unfold Py.index.
  destruct (0 <=? i) eqn:E; [by rewrite Hx|]. apply Z.leb_gt in E. lia.
Qed.

Lemma index_Ok_lt {A : Type} (l : list A) (i : Z) (x : A) :
  0 ≤ i → Py.index l i = Ok x → (Z.to_nat i < length l)%nat.
Proof.
  intros Hi. unfold Py.index.
  destruct (0 <=? i) eqn:E; [|apply Z.leb_gt in E; lia].
  destruct (l !! Z.to_nat i) eqn:El; [|discriminate].
  intros _. by apply lookup_lt_Some in El.
Qed.

Lemma index_last {A : Type} (l : list A) (x : A) :
  Py.index (l ++ [x]) (-1) = Ok x.
Proof.
  unfold Py.index. change (0 <=? -1) with false. cbv iota.
  rewrite length_app. simpl length.
  destruct (0 <=? -1 + Z.of_nat (length l + 1)) eqn:E;
    [|apply Z.leb_gt in E; lia].
  replace (Z.to_nat (-1 + Z.of_nat (length l + 1))) with (length l) by lia.
  by rewrite list_lookup_middle by done.
Qed.

Lemma set_item_insert {A : Type} (l : list A) (i : Z) (x : A) :
  0 ≤ i < Z.of_nat (length l) →
  Py.set_item l i x = Ok (<[Z.to_nat i := x]> l).
Proof.
  intros Hi. unfold Py.set_item.
  destruct (0 <=? i) eqn:E; [|apply Z.leb_gt in E; lia].
  rewrite E. destruct (i <? Z.of_nat (length l)) eqn:E2; [done|].
  apply Z.ltb_ge in E2. lia.
Qed.

(** A loop whose body only appends [k] cells appends [k] cells per turn. *)
Lemma for_each_extending {A : Type} (k : nat)
    (body : list string → A → result (list string)) (xs : list A) :
  (∀ s x s', body s x = Ok s' → ∃ cs, s' = s ++ cs ∧ length cs = k) →
  ∀ acc acc', for_each body xs acc = Ok acc' →
  ∃ rest, acc' = acc ++ rest ∧ length rest = (length xs * k)%nat.
Proof.
  intros Hbody. induction xs as [|x xs IH]; intros acc acc' H.
  - injection H as <-. exists []. by rewrite app_nil_r.
  - cbn [for_each] in H. apply bind_Ok in H as (s' & Hx & H).
    destruct (Hbody _ _ _ Hx) as (cs & -> & Hcs).
    destruct (IH _ _ H) as (rest & -> & Hrest).
    exists (cs ++ rest). rewrite app_assoc. split; [done|].
    rewrite length_app. simpl. lia.
Qed.

(** A row with at least [n] cells is [n] cells followed by the rest. *)
Lemma long_row_ind (P : list string → Prop) (n : nat) :
  (∀ (cell : nat → string) (rest : list string),
     P (map cell (seq 0 n) ++ rest)) →
  ∀ row, (n ≤ length row)%nat → P row.
Proof.
  intros HP row Hlen.
  assert (row = map (λ k, nth k row "") (seq 0 n) ++ drop n row) as ->;
    [|apply HP].
  rewrite <- (take_drop n row) at 1. f_equal.
  apply list_eq. intros i. rewrite list_lookup_fmap.
  destruct (decide (i < n)%nat) as [Hi|Hi].
  - rewrite lookup_take_lt by done. rewrite lookup_seq_lt by done. simpl.
    destruct (row !! i) eqn:E.
    + f_equal. symmetry. by apply nth_lookup_Some.
    + apply lookup_ge_None in E. lia.
  - rewrite lookup_take_ge by lia. by rewrite lookup_seq_ge by lia.
Qed.

Lemma upto_cases (P : Z → Prop) (n : Z) :
  Forall P (seqZ 0 (n + 1)) → ∀ i, 0 ≤ i ≤ n → P i.
Proof.
  intros H i Hi. rewrite Forall_forall in H. apply H.
  apply elem_of_seqZ. lia.
Qed.

(** ** Round-robin dealing: proofs *)

Section RoundRobin.

Variable row : list string.
Variable args : list (list string).
Variable first : Z.
Hypothesis args_nonempty : args ≠ [].
Hypothesis first_nonneg : 0 ≤ first.

Lemma length_dealt len : length (dealt row args first len) = length args.
Proof using Type. unfold dealt. apply length_imap. Qed.

Lemma dealt_lookup len (k : nat) bucket :
  args !! k = Some bucket →
  dealt row args first len !! k
  = Some (bucket
          ++ map (cell_at row first)
                 (filter (λ i, i `mod` Z.of_nat (length args) = Z.of_nat k)
                         (seqZ 0 len))).
Proof using Type.
  intros Hb. unfold dealt. by rewrite list_lookup_imap, Hb.
Qed.

Lemma dealt_none len : len ≤ 0 → dealt row args first len = args.
Proof using Type.
  intros Hlen. apply list_eq. intros k. unfold dealt.
  rewrite list_lookup_imap. destruct (args !! k) as [b|]; [|done]. simpl.
  rewrite seqZ_nil by done. by rewrite filter_nil, app_nil_r.
Qed.

Lemma bucket_in_range (m : nat) :
  0 ≤ Z.of_nat m `mod` Z.of_nat (length args) < Z.of_nat (length args).
Proof using args_nonempty.
  apply Z.mod_pos_bound. destruct args; [done|simpl; lia].
Qed.

(** Dealing one more column appends its cell to the bucket whose number is
    the offset modulo the bucket count, and to no other. *)
Lemma dealt_succ (m : nat) :
  <[Z.to_nat (Z.of_nat m `mod` Z.of_nat (length args)) :=
      default [] (dealt row args first (Z.of_nat m)
                  !! Z.to_nat (Z.of_nat m `mod` Z.of_nat (length args)))
      ++ [cell_at row first (Z.of_nat m)]]>
    (dealt row args first (Z.of_nat m))
  = dealt row args first (Z.of_nat (S m)).
Proof using args_nonempty.
  pose proof (bucket_in_range m) as Hk.
  apply list_eq. intros k. unfold dealt.
  destruct (decide (k = Z.to_nat (Z.of_nat m `mod` Z.of_nat (length args))))
    as [->|Hkk].
  - rewrite list_lookup_insert_eq by (rewrite length_imap; lia).
    rewrite !list_lookup_imap.
    destruct (args !! _) as [b|] eqn:Hb; [|apply lookup_ge_None in Hb; lia].
    simpl. rewrite seqZ_S, filter_app, Z.add_0_l.
    rewrite filter_cons_True by lia. rewrite filter_nil.
    by rewrite map_app, app_assoc.
  - rewrite list_lookup_insert_ne by done. rewrite !list_lookup_imap.
    destruct (args !! k) as [b|] eqn:Hb; [|done]. simpl.
    rewrite seqZ_S, filter_app, Z.add_0_l.
    rewrite filter_cons_False; [by rewrite filter_nil, app_nil_r|].
    intros Heq. apply Hkk. rewrite Heq. by rewrite Nat2Z.id.
Qed.

Lemma deal_loop (m : nat) :
  first + Z.of_nat m ≤ Z.of_nat (length row) →
  for_each (MultiDivisionReader.deal_step row)
           (seqZ first (Z.of_nat m)) (args, 0)
  = Ok (dealt row args first (Z.of_nat m), Z.of_nat m).
Proof using args_nonempty first_nonneg.
  induction m as [|m IH]; intros Hlen.
  - simpl. by rewrite dealt_none.
  - rewrite seqZ_S, for_each_app, IH by lia.
    cbn [mbind result_bind for_each].
    pose proof (bucket_in_range m) as Hk.
    unfold MultiDivisionReader.deal_step. rewrite length_dealt.
    destruct (Z.of_nat (length args) =? 0) eqn:E;
      [apply Z.eqb_eq in E; lia|].
    destruct (dealt row args first (Z.of_nat m)
              !! Z.to_nat (Z.of_nat m `mod` Z.of_nat (length args)))
      as [b|] eqn:Hb.
    2:{ apply lookup_ge_None in Hb. rewrite length_dealt in Hb. lia. }
    rewrite (index_lookup _ _ b) by (lia || done).
    cbn [mbind result_bind].
    rewrite (index_lookup row _ (cell_at row first (Z.of_nat m))).
    2: lia.
    2:{ unfold cell_at.
        destruct (row !! Z.to_nat (first + Z.of_nat m)) eqn:Er.
        - f_equal. symmetry. by apply nth_lookup_Some.
        - apply lookup_ge_None in Er. lia. }
    cbn [mbind result_bind].
    rewrite set_item_insert by (rewrite length_dealt; lia).
    cbn [mbind result_bind]. do 2 f_equal; [|lia].
    rewrite <- dealt_succ. by rewrite Hb.
Qed.

(** The dealing loop of the multi-division reader deals round-robin. *)
Lemma deal_round_robin last :
  last < Z.of_nat (length row) →
  MultiDivisionReader.deal row args first last
  = Ok (dealt row args first (last + 1 - first)).
Proof using args_nonempty first_nonneg.
  intros Hl. unfold MultiDivisionReader.deal, Py.range.
  destruct (decide (0 ≤ last + 1 - first)) as [Hpos|Hneg].
  - rewrite <- (Z2Nat.id (last + 1 - first)) by done.
    by rewrite deal_loop by lia.
  - rewrite seqZ_nil by lia. simpl. by rewrite dealt_none by lia.
Qed.

End RoundRobin.

(** ** Registry: proofs *)

Lemma SURVEY_READERS_dict :
  SURVEY_READERS = dict_by_survey_type registry_items.
Proof.
  unfold SURVEY_READERS, registry_items. by destruct SURVEY_READERS_items.
Qed.

(** Loading the module raises nothing. *)
Lemma import_ok :
  SURVEY_READERS_items = Ok registry_items
  ∧ col_to_index "K" = Ok ROW_INDEX_SURVEY_TYPE
  ∧ ROW_INDEX_SURVEY_TYPE = 10.
Proof. by vm_compute. Qed.

Lemma dict_by_survey_type_Some items key entry :
  dict_by_survey_type items !! key = Some entry →
  entry ∈ items ∧ survey_type entry = key.
Proof.
  unfold dict_by_survey_type. revert entry.
  induction items as [|x items IH] using rev_ind; intros entry.
  - simpl. by rewrite lookup_empty.
  - rewrite foldl_app. simpl. rewrite lookup_insert_Some.
    intros [[<- <-]|[Hne Hl]].
    + split; [|done]. apply elem_of_app. right.
      by apply list_elem_of_singleton.
    + destruct (IH _ Hl) as [? ?]. split; [|done].
      apply elem_of_app. by left.
Qed.

Lemma dict_by_survey_type_None items key :
  key ∉ map survey_type items → dict_by_survey_type items !! key = None.
Proof.
  unfold dict_by_survey_type.
  induction items as [|x items IH] using rev_ind; intros Hk.
  - apply lookup_empty.
  - rewrite foldl_app. simpl. rewrite map_app in Hk.
    apply not_elem_of_app in Hk as [Hk Hx].
    rewrite lookup_insert_ne; [by apply IH|].
    intros Heq. apply Hx. simpl. rewrite Heq. by apply list_elem_of_singleton.
Qed.

Lemma registered_item entry : registered entry → entry ∈ registry_items.
Proof.
  unfold registered. rewrite SURVEY_READERS_dict. intros H.
  by apply dict_by_survey_type_Some in H as [? _].
Qed.

Lemma unregistered_lookup ty :
  ty ∉ registered_literals → dict_get SURVEY_READERS ty = Raise (KeyError ty).
Proof.
  intros H. unfold dict_get. rewrite SURVEY_READERS_dict.
  by rewrite dict_by_survey_type_None.
Qed.

(** One goal per registered layout. *)
Ltac registry_cases H :=
  apply registered_item in H;
  let v := eval vm_compute in registry_items in
  change registry_items with v in H;
  repeat (apply elem_of_cons in H as [->|H]);
  [..|by apply elem_of_nil in H].

(** Turns [long_enough r row], for a given reader, into a bound on the
    length of the row. *)
Ltac column_bound H :=
  unfold long_enough in H;
  match type of H with
  | max_column ?r < _ =>
      let v := eval vm_compute in (max_column r) in
      change (max_column r) with v in H
  end.

(** Replaces a row of more than 135 cells by 136 unknown cells and an
    unknown rest. *)
Ltac long_row H :=
  match type of H with
  | _ < Z.of_nat (length ?row) =>
      let H' := fresh in
      assert (136 ≤ length row)%nat as H' by lia;
      clear H; revert row H';
      match goal with
      | |- ∀ row, _ → @?P row => apply (long_row_ind P 136%nat)
      end;
      intros cell rest; cbv beta
  end.

(** One goal per offset of a range. *)
Ltac each_offset :=
  match goal with
  | |- ∀ i, 0 ≤ i ≤ ?n → @?P i =>
      apply (upto_cases P n);
      let l := eval vm_compute in (seqZ 0 (n + 1)) in
      change (seqZ 0 (n + 1)) with l;
      repeat (apply Forall_cons; split);
      [..|apply Forall_nil]; cbv beta
  end.

Lemma snoc_nonempty {A : Type} (l : list A) (x : A) : l ++ [x] ≠ [].
Proof. by destruct l. Qed.

(** ** Row transformation pass: proofs *)

Lemma append_attr_extends answers s attr s' :
  Cleaner.append_attr answers s attr = Ok s' →
  ∃ cs, s' = s ++ cs ∧ length cs = 1%nat.
Proof.
  unfold Cleaner.append_attr. intros H.
  apply bind_Ok in H as (x & _ & H). injection H as <-. by exists [x].
Qed.

Lemma slice_to_take {A : Type} (l : list A) (n : nat) :
  Py.slice_to l (Z.of_nat n) = take n l.
Proof.
  unfold Py.slice_to.
  destruct (0 <=? Z.of_nat n) eqn:E; [|apply Z.leb_gt in E; lia].
  by rewrite Nat2Z.id.
Qed.

Lemma make_first_row_eq row :
  Cleaner.make_first_row row
  = Ok (take 11 row ++ replicate 9 "grammar" ++ replicate 9 "middle"
        ++ replicate 9 "high" ++ replicate 5 "whole").
Proof.
  unfold Cleaner.make_first_row.
  change (col_to_index "K") with (Ok 10). cbn [mbind result_bind].
  change (10 + 1) with (Z.of_nat 11). rewrite slice_to_take.
  change (Z.to_nat DIVISION_ARG_COUNT) with 9%nat.
  change (Z.to_nat WHOLE_SCHOOL_ARG_COUNT) with 5%nat.
  by rewrite <- !app_assoc.
Qed.

Lemma make_second_row_eq row :
  Cleaner.make_second_row row
  = Ok (take 11 row ++ DIVISION_DATA_ARGS ++ DIVISION_DATA_ARGS
        ++ DIVISION_DATA_ARGS ++ WHOLE_SCHOOL_ARGS).
Proof.
  unfold Cleaner.make_second_row.
  change (col_to_index "K") with (Ok 10). cbn [mbind result_bind].
  change (10 + 1) with (Z.of_nat 11). rewrite slice_to_take.
  by rewrite <- !app_assoc.
Qed.

Lemma make_data_row_prefix row out :
  Cleaner.make_data_row row = Ok out →
  ∃ rest, out = take 11 row ++ rest ∧ length rest = 32%nat.
Proof.
  unfold Cleaner.make_data_row. intros H.
  apply bind_Ok in H as (ty & _ & H).
  apply bind_Ok in H as (entry & _ & H).
  apply bind_Ok in H as (processed & _ & H).
  change (col_to_index "K") with (Ok 10) in H. cbn [mbind result_bind] in H.
  change (10 + 1) with (Z.of_nat 11) in H. rewrite slice_to_take in H.
  apply bind_Ok in H as (o1 & H1 & H).
  apply bind_Ok in H as (o2 & H2 & H). injection H as <-.
  assert (3 < length processed)%nat as Hlen.
  { unfold WHOLE_SCHOOL_ARGS in H2. cbn [for_each] in H2.
    apply bind_Ok in H2 as (s1 & H2 & _).
    apply bind_Ok in H2 as (whole & H2 & _).
    by apply index_Ok_lt in H2. }
  apply (for_each_extending 9) in H1 as (r1 & -> & Hr1).
  2:{ intros s answers s' Hs.
      apply (for_each_extending 1) in Hs as (cs & -> & Hcs);
        [by exists cs|].
      intros ? ? ?. apply append_attr_extends. }
  apply (for_each_extending 1) in H2 as (r2 & -> & Hr2).
  2:{ intros s attr s' Hs. apply bind_Ok in Hs as (whole & _ & Hs).
      by apply append_attr_extends in Hs. }
  exists (r1 ++ r2). rewrite app_assoc. split; [done|].
  rewrite length_app, Hr1, Hr2.
  change 3 with (Z.of_nat 3). rewrite slice_to_take, length_take.
  change (length WHOLE_SCHOOL_ARGS) with 5%nat. lia.
Qed.

Lemma make_data_row_Ok entry row :
  Py.index row ROW_INDEX_SURVEY_TYPE = Ok (survey_type entry) →
  registered entry → long_enough (reader entry) row →
  ∃ out, Cleaner.make_data_row row = Ok out.
Proof.
  intros Hty Hr Hl. unfold Cleaner.make_data_row.
  rewrite Hty. cbn [mbind result_bind].
  unfold dict_get. rewrite Hr. cbn [mbind result_bind].
  clear Hty. registry_cases Hr; cbn [reader] in *.
  all: column_bound Hl; long_row Hl.
  all: eexists; vm_compute; reflexivity.
Qed.

(** * Properties of the program *)

(** ** Column addressing *)

(** C2: on a label of one or more letters, in either case, [col_to_index]
    returns the bijective base-26 value of the label minus 1; A, Z and AA
    give 0, 25 and 26; and a label that comes earlier in spreadsheet column
    order gets a strictly smaller index. *)
Theorem col_to_index_bijective_base26 (a b : string) :
  is_label a = true → is_label b = true →
  col_to_index a = Ok (bijective_base26 a - 1)
  ∧ (sheet_ltb a b = true →
     ∃ x y, col_to_index a = Ok x ∧ col_to_index b = Ok y ∧ x < y)
  ∧ col_to_index "A" = Ok 0
  ∧ col_to_index "Z" = Ok 25
  ∧ col_to_index "AA" = Ok 26.
Proof.
  unfold is_label. intros Ha Hb.
  apply andb_prop in Ha as [_ Ha]. apply andb_prop in Hb as [_ Hb].
  split; [by apply col_to_index_letters|].
  split; [|by vm_compute].
  intros Hlt. exists (bijective_base26 a - 1), (bijective_base26 b - 1).
  rewrite !col_to_index_letters by done. repeat split.
  pose proof (sheet_order_value a b Ha Hb Hlt). lia.
Qed.

Lemma col_to_index_bijective_base26_witness :
  is_label "AZ" = true ∧ is_label "ba" = true
  ∧ col_to_index "AZ" = Ok 51
  ∧ ∃ x y, col_to_index "AZ" = Ok x ∧ col_to_index "ba" = Ok y ∧ x < y.
Proof.
  destruct (col_to_index_bijective_base26 "AZ" "ba" eq_refl eq_refl)
    as (Hv & Hlt & _).
  split; [reflexivity|]. split; [reflexivity|]. split; [exact Hv|].
  apply Hlt. reflexivity.
Defined.

(** C9: [col_to_index] stops with the assertion as soon as the label,
    after case normalisation, has a character outside A-Z, which is the
    case of every label with a character that is not a letter; when every
    character of the label is a letter A-Z or a-z the assertion never
    fails and the function returns an index. *)
Theorem col_to_index_assertion (label : string) :
  ((∃ c, c ∈ Py.upper label ∧ is_upper_letter c = false) →
   col_to_index label = Raise AssertionError)
  ∧ (all_letters label = false → col_to_index label = Raise AssertionError)
  ∧ (all_letters label = true → ∃ v, col_to_index label = Ok v).
Proof.
  split; [|split].
  - intros (c & Hin & Hc). apply col_to_index_bad_char.
    apply existsb_exists. exists c. split; [by apply list_elem_of_In|].
    by rewrite Hc.
  - intros Hl. apply col_to_index_bad_char. by apply not_letter_bad_char.
  - intros Hl. eexists. by apply col_to_index_letters.
Qed.

Lemma col_to_index_assertion_witness :
  col_to_index "A1" = Raise AssertionError
  ∧ col_to_index "a b" = Raise AssertionError
  ∧ ∃ v, col_to_index "cx" = Ok v.
Proof.
  split; [|split].
  - apply (proj1 (col_to_index_assertion "A1")).
    exists "1"%char. split; [|reflexivity].
    vm_compute. apply list_elem_of_further, list_elem_of_here.
  - apply (proj1 (proj2 (col_to_index_assertion "a b"))). reflexivity.
  - apply (proj2 (proj2 (col_to_index_assertion "cx"))). reflexivity.
Defined.

(** C10: on the empty string the loop of [col_to_index] has nothing to
    run over, no assertion is checked, and the result is -1: not a
    zero-based column position, and as a list index it addresses the last
    cell of a row. *)
Theorem col_to_index_empty_label :
  Py.enumerate (rev (Py.upper "")) = []
  ∧ ∃ v, col_to_index "" = Ok v
      ∧ v = -1
      ∧ ∀ (row : list string) (last : string),
          Py.index (row ++ [last]) v = Ok last.
Proof.
  split; [reflexivity|]. exists (-1). split; [reflexivity|].
  split; [reflexivity|]. intros row last. apply index_last.
Qed.

(** ** Division readers *)

(** C1: there are seven registered layouts, and for each of them and any
    row with a cell at every column the layout references, the reader
    returns four components: three [DivisionAnswers] records with 9 data
    fields each, in the order of [DIVISION_DATA_ARGS], and one
    [WholeSchoolAnswers] record with 5 fields, in the order of
    [WHOLE_SCHOOL_ARGS]. *)
Theorem reader_output_shape (entry : SurveyReader) (row : list string) :
  registered entry → long_enough (reader entry) row →
  length registry_items = 7%nat
  ∧ Forall registered registry_items
  ∧ ∃ g m h w,
      call (reader entry) row = Ok [Some g; Some m; Some h; Some w]
      ∧ is_division_answers g ∧ is_division_answers m
      ∧ is_division_answers h ∧ is_whole_school_answers w.
Proof.
  intros Hr Hl. split; [reflexivity|]. split.
  { let v := eval vm_compute in registry_items in
    change registry_items with v.
    repeat (apply Forall_cons; split); [..|apply Forall_nil];
      vm_compute; reflexivity. }
  registry_cases Hr; cbn [reader] in *.
  all: column_bound Hl; long_row Hl.
  all: eexists _, _, _, _; split; [vm_compute; reflexivity|].
  all: repeat split; try reflexivity.
  all: eexists _, _; repeat split; vm_compute; reflexivity.
Qed.

Lemma reader_output_shape_witness :
  registered grammar_only_entry
  ∧ long_enough (reader grammar_only_entry)
                (sample_row "Grammar School only (K-6)")
  ∧ ∃ g m h w,
      call (reader grammar_only_entry) (sample_row "Grammar School only (K-6)")
      = Ok [Some g; Some m; Some h; Some w]
      ∧ is_division_answers g ∧ is_division_answers m
      ∧ is_division_answers h ∧ is_whole_school_answers w.
Proof.
  assert (registered grammar_only_entry) as Hr by (vm_compute; reflexivity).
  assert (long_enough (reader grammar_only_entry)
                      (sample_row "Grammar School only (K-6)")) as Hl
    by (vm_compute; reflexivity).
  split; [exact Hr|]. split; [exact Hl|].
  exact (proj2 (proj2 (reader_output_shape _ _ Hr Hl))).
Defined.

(** C3: for every registered multi-division layout and any row long
    enough, the categorical loop deals the columns round-robin over the
    configured divisions, and in the reader's result the cell at
    range-relative offset [i] is data field number [i / n], in canonical
    order, of division number [i mod n]; with divisions grammar and middle
    the even offsets go to grammar and the odd ones to middle. *)
Theorem categorical_round_robin (entry : SurveyReader)
    (m : MultiDivisionReader.t) (row : list string) :
  registered entry → reader entry = Multi m →
  long_enough (reader entry) row →
  MultiDivisionReader.deal row
    (map (λ d, [d]) (MultiDivisionReader.divisions m))
    (MultiDivisionReader.start_categorical m)
    (MultiDivisionReader.end_categorical m)
  = Ok (dealt row (map (λ d, [d]) (MultiDivisionReader.divisions m))
          (MultiDivisionReader.start_categorical m)
          (MultiDivisionReader.end_categorical m + 1
           - MultiDivisionReader.start_categorical m))
  ∧ ∃ out,
      call m row = Ok out
      ∧ (∀ i,
           0 ≤ i ≤ MultiDivisionReader.end_categorical m
                   - MultiDivisionReader.start_categorical m →
           ∃ cell,
             Py.index row (MultiDivisionReader.start_categorical m + i)
             = Ok cell
             ∧ categorical_field m out i = Ok cell)
      ∧ (MultiDivisionReader.divisions m = [GRAMMAR; MIDDLE] →
         ∀ i,
           0 ≤ i ≤ MultiDivisionReader.end_categorical m
                   - MultiDivisionReader.start_categorical m →
           ∃ cell,
             Py.index row (MultiDivisionReader.start_categorical m + i)
             = Ok cell
             ∧ division_field out (if Z.even i then GRAMMAR else MIDDLE)
                              (i / 2)
               = Ok cell).
Proof.
  intros Hr Hm Hl.
  registry_cases Hr; cbn [reader] in *; try discriminate Hm.
  all: injection Hm as <-; column_bound Hl.
  all: split;
    [apply deal_round_robin;
       cbn [MultiDivisionReader.divisions
            MultiDivisionReader.start_categorical
            MultiDivisionReader.end_categorical]; (done || lia)|].
  all: long_row Hl.
  all: eexists; split; [vm_compute; reflexivity|].
  all: cbn [MultiDivisionReader.divisions
            MultiDivisionReader.start_categorical
            MultiDivisionReader.end_categorical].
  all: split;
    [each_offset; eexists; split; vm_compute; reflexivity|].
  all: intros Hd; try discriminate Hd; clear Hd.
  all: each_offset; eexists; split; vm_compute; reflexivity.
Qed.

Lemma categorical_round_robin_witness :
  registered grammar_middle_entry
  ∧ long_enough (reader grammar_middle_entry)
                (sample_row (survey_type grammar_middle_entry))
  ∧ ∃ out,
      call grammar_middle_reader
           (sample_row (survey_type grammar_middle_entry)) = Ok out
      ∧ division_field out GRAMMAR 3 = Ok "28"
      ∧ division_field out MIDDLE 3 = Ok "29".
Proof.
  assert (registered grammar_middle_entry) as Hr by (vm_compute; reflexivity).
  assert (long_enough (reader grammar_middle_entry)
                      (sample_row (survey_type grammar_middle_entry))) as Hl
    by (vm_compute; reflexivity).
  split; [exact Hr|]. split; [exact Hl|].
  destruct (categorical_round_robin _ grammar_middle_reader _ Hr eq_refl Hl)
    as (_ & out & Hcall & _ & Hgm).
  exists out. split; [exact Hcall|].
  destruct (Hgm eq_refl 6 ltac:(vm_compute; split; discriminate))
    as (c6 & Hc6 & Hf6).
  destruct (Hgm eq_refl 7 ltac:(vm_compute; split; discriminate))
    as (c7 & Hc7 & Hf7).
  vm_compute in Hc6. injection Hc6 as <-.
  vm_compute in Hc7. injection Hc7 as <-.
  split; [exact Hf6 | exact Hf7].
Defined.

(** C4: for every registered multi-division layout and any row long
    enough, the open-ended loop deals the columns round-robin over one
    bucket per division plus one shared bucket; a division's cells follow
    its categorical fields, the shared bucket's two cells are the
    whole-school strengths and weaknesses, and the whole-school-only
    columns follow them in configured order, which makes 5 fields. *)
Theorem open_ended_round_robin (entry : SurveyReader)
    (m : MultiDivisionReader.t) (row : list string) :
  registered entry → reader entry = Multi m →
  long_enough (reader entry) row →
  (∃ categorical,
     MultiDivisionReader.deal row
       (map (λ d, [d]) (MultiDivisionReader.divisions m))
       (MultiDivisionReader.start_categorical m)
       (MultiDivisionReader.end_categorical m)
     = Ok categorical
     ∧ length (categorical ++ [[]])
       = S (length (MultiDivisionReader.divisions m))
     ∧ MultiDivisionReader.deal row (categorical ++ [[]])
         (MultiDivisionReader.start_open m) (MultiDivisionReader.end_open m)
       = Ok (dealt row (categorical ++ [[]])
               (MultiDivisionReader.start_open m)
               (MultiDivisionReader.end_open m + 1
                - MultiDivisionReader.start_open m)))
  ∧ ∃ out w strengths weaknesses extras,
      call m row = Ok out
      ∧ (∀ i,
           0 ≤ i ≤ MultiDivisionReader.end_open m
                   - MultiDivisionReader.start_open m →
           ∃ cell,
             Py.index row (MultiDivisionReader.start_open m + i) = Ok cell
             ∧ open_ended_field m out i = Ok cell)
      ∧ Py.index out 3 = Ok (Some w)
      ∧ is_whole_school_answers w
      ∧ nt_values w = strengths :: weaknesses :: extras
      ∧ whole_school_field out 0 = Ok strengths
      ∧ whole_school_field out 1 = Ok weaknesses
      ∧ map_each (Py.index row) (MultiDivisionReader.whole_school_cols m)
        = Ok extras.
Proof.
  intros Hr Hm Hl.
  registry_cases Hr; cbn [reader] in *; try discriminate Hm.
  all: injection Hm as <-; column_bound Hl.
  all: split.
  all: try (eexists; split;
    [apply deal_round_robin;
       cbn [MultiDivisionReader.divisions
            MultiDivisionReader.start_categorical
            MultiDivisionReader.end_categorical]; (done || lia)|];
    split;
    [by rewrite length_app, length_dealt, length_map, Nat.add_1_r|];
    apply deal_round_robin;
      cbn [MultiDivisionReader.start_open MultiDivisionReader.end_open];
      (apply snoc_nonempty || lia)).
  all: long_row Hl.
  all: eexists _, _, _, _, _; split; [vm_compute; reflexivity|].
  all: cbn [MultiDivisionReader.start_open MultiDivisionReader.end_open
            MultiDivisionReader.whole_school_cols].
  all: split; [each_offset; eexists; split; vm_compute; reflexivity|].
  all: split; [vm_compute; reflexivity|].
  all: split; [repeat split; vm_compute; reflexivity|].
  all: repeat split; vm_compute; reflexivity.
Qed.

Lemma open_ended_round_robin_witness :
  registered grammar_middle_entry
  ∧ long_enough (reader grammar_middle_entry)
                (sample_row (survey_type grammar_middle_entry))
  ∧ ∃ out,
      call grammar_middle_reader
           (sample_row (survey_type grammar_middle_entry)) = Ok out
      ∧ whole_school_field out 0 = Ok "38"
      ∧ whole_school_field out 1 = Ok "41"
      ∧ open_ended_field grammar_middle_reader out 4 = Ok "40".
Proof.
  assert (registered grammar_middle_entry) as Hr by (vm_compute; reflexivity).
  assert (long_enough (reader grammar_middle_entry)
                      (sample_row (survey_type grammar_middle_entry))) as Hl
    by (vm_compute; reflexivity).
  split; [exact Hr|]. split; [exact Hl|].
  destruct (open_ended_round_robin _ grammar_middle_reader _ Hr eq_refl Hl)
    as (_ & out & w & s & k & extras & Hcall & Hopen & _).
  exists out. split; [exact Hcall|].
  destruct (Hopen 2 ltac:(vm_compute; split; discriminate))
    as (c2 & Hc2 & Hf2).
  destruct (Hopen 5 ltac:(vm_compute; split; discriminate))
    as (c5 & Hc5 & Hf5).
  destruct (Hopen 4 ltac:(vm_compute; split; discriminate))
    as (c4 & Hc4 & Hf4).
  vm_compute in Hc2. injection Hc2 as <-.
  vm_compute in Hc5. injection Hc5 as <-.
  vm_compute in Hc4. injection Hc4 as <-.
  split; [exact Hf2|]. split; [exact Hf5 | exact Hf4].
Defined.

(** C6: for every registered layout, of either reader class, and any row
    long enough, a division that is not among the layout's configured
    divisions still has its record in the result, and the record's name and
    9 data fields are all empty strings. *)
Theorem absent_division_empty (entry : SurveyReader) (row : list string)
    (d : string) (v : Z) :
  registered entry → long_enough (reader entry) row →
  (d, v) ∈ DIVISION_TO_INDEX →
  Py.contains_str (configured_divisions (reader entry)) d = false →
  ∃ out a,
    call (reader entry) row = Ok out
    ∧ Py.index out v = Ok (Some a)
    ∧ nt_class a = DivisionAnswers
    ∧ nt_values a = replicate 10 ""
    ∧ map_each (getattr (Some a)) DIVISION_DATA_ARGS = Ok (replicate 9 "").
Proof.
  intros Hr Hl Hd Hc. unfold DIVISION_TO_INDEX in Hd.
  repeat (apply elem_of_cons in Hd as [Hd|Hd]);
    [..|by apply elem_of_nil in Hd].
  all: injection Hd as -> ->.
  all: registry_cases Hr; cbn [reader] in *.
  all: try (vm_compute in Hc; discriminate Hc).
  all: clear Hc; column_bound Hl; long_row Hl.
  all: eexists _, _; split; [vm_compute; reflexivity|].
  all: repeat split; vm_compute; reflexivity.
Qed.

Lemma absent_division_empty_witness :
  registered grammar_middle_entry
  ∧ long_enough (reader grammar_middle_entry)
                (sample_row (survey_type grammar_middle_entry))
  ∧ (HIGH, 2) ∈ DIVISION_TO_INDEX
  ∧ ∃ out a,
      call (reader grammar_middle_entry)
           (sample_row (survey_type grammar_middle_entry)) = Ok out
      ∧ Py.index out 2 = Ok (Some a)
      ∧ nt_class a = DivisionAnswers
      ∧ nt_values a = replicate 10 ""
      ∧ map_each (getattr (Some a)) DIVISION_DATA_ARGS = Ok (replicate 9 "").
Proof.
  assert (registered grammar_middle_entry) as Hr by (vm_compute; reflexivity).
  assert (long_enough (reader grammar_middle_entry)
                      (sample_row (survey_type grammar_middle_entry))) as Hl
    by (vm_compute; reflexivity).
  assert ((HIGH, 2) ∈ DIVISION_TO_INDEX) as Hd
    by (apply list_elem_of_further, list_elem_of_further, list_elem_of_here).
  split; [exact Hr|]. split; [exact Hl|]. split; [exact Hd|].
  exact (absent_division_empty _ _ HIGH 2 Hr Hl Hd eq_refl).
Defined.

(** ** Row transformation pass *)

(** C5, as the code has it: the second header row is the leading columns,
    the names of [DIVISION_DATA_ARGS] three times and the names of
    [WHOLE_SCHOOL_ARGS] once; the first division field name is spelt
    eduction, so the row is never the one the specification describes. *)
Theorem make_second_row_eduction (row : list string) :
  Cleaner.process_row 1 row
  = Ok (take 11 row ++ DIVISION_DATA_ARGS ++ DIVISION_DATA_ARGS
        ++ DIVISION_DATA_ARGS ++ WHOLE_SCHOOL_ARGS)
  ∧ DIVISION_DATA_ARGS !! 0%nat = Some "eduction"
  ∧ drop 1 DIVISION_DATA_ARGS = drop 1 spec_division_fields
  ∧ Cleaner.process_row 1 row ≠ Ok (spec_second_row row).
Proof.
  change (Cleaner.process_row 1 row) with (Cleaner.make_second_row row).
  rewrite make_second_row_eq. repeat split.
  intros Heq. injection Heq as Heq. unfold spec_second_row in Heq.
  apply app_inv_head in Heq. discriminate Heq.
Qed.

(** C7: whatever the row index, the row written out is the input row's
    columns 0 to 10, the survey-type column K included, followed by 32
    answer columns; the header rows are always written, and so is a data
    row of a registered survey type that is long enough for its layout. *)
Theorem leading_columns_copied (i : Z) (row : list string) :
  (∀ out,
     Cleaner.process_row i row = Ok out →
     ∃ answers,
       out = take (Z.to_nat (ROW_INDEX_SURVEY_TYPE + 1)) row ++ answers
       ∧ length answers = 32%nat)
  ∧ (i = 0 ∨ i = 1 → ∃ out, Cleaner.process_row i row = Ok out)
  ∧ (∀ entry,
       Py.index row ROW_INDEX_SURVEY_TYPE = Ok (survey_type entry) →
       registered entry → long_enough (reader entry) row →
       ∃ out, Cleaner.process_row i row = Ok out).
Proof.
  change (Z.to_nat (ROW_INDEX_SURVEY_TYPE + 1)) with 11%nat.
  unfold Cleaner.process_row.
  destruct (i =? 0) eqn:E0; [|destruct (i =? 1) eqn:E1].
  - rewrite make_first_row_eq. split; [|by eauto].
    intros out H. injection H as <-. by eexists.
  - rewrite make_second_row_eq. split; [|by eauto].
    intros out H. injection H as <-. by eexists.
  - split; [apply make_data_row_prefix|]. split.
    + intros [->| ->]; discriminate.
    + intros entry. apply make_data_row_Ok.
Qed.

Lemma leading_columns_copied_witness :
  ∃ out answers,
    Cleaner.process_row 2 (sample_row (survey_type grammar_middle_entry))
    = Ok out
    ∧ out = take 11 (sample_row (survey_type grammar_middle_entry))
            ++ answers
    ∧ length answers = 32%nat.
Proof.
  assert (registered grammar_middle_entry) as Hr by (vm_compute; reflexivity).
  assert (long_enough (reader grammar_middle_entry)
                      (sample_row (survey_type grammar_middle_entry))) as Hl
    by (vm_compute; reflexivity).
  destruct (leading_columns_copied
              2 (sample_row (survey_type grammar_middle_entry)))
    as (Hprefix & _ & Hdata).
  destruct (Hdata grammar_middle_entry eq_refl Hr Hl) as (out & Hout).
  destruct (Hprefix out Hout) as (answers & Heq & Hlen).
  exists out, answers. split; [exact Hout|]. split; [exact Heq | exact Hlen].
Defined.

(** C8: a data row (index 2 or more) whose survey-type cell is none of
    the seven registered literals raises [KeyError] on that cell: the pass
    stops there and writes no row for it. *)
Theorem unregistered_survey_type_raises (i : Z) (row : list string)
    (ty : string) (later written : list (list string)) :
  2 ≤ i →
  Py.index row ROW_INDEX_SURVEY_TYPE = Ok ty →
  ty ∉ registered_literals →
  registered_literals
  = ["Grammar School only (K-6)";
     "Middle School only (7-8)";
     "High School only (9-12)";
     "Grammar and Middle School only (K-6 and 7-8)";
     "Grammar and High School only (K-6 and 9-12)";
     "Grammar, Middle, and High School (K-6, 7-8, and 9-12)";
     "Middle and High School only (7-8 and 9-12)"]
  ∧ Cleaner.process_row i row = Raise (KeyError ty)
  ∧ Cleaner.run i (row :: later) written = (written, Some (KeyError ty)).
Proof.
  intros Hi Hty Hun. split; [reflexivity|].
  assert (Cleaner.process_row i row = Raise (KeyError ty)) as Hrow.
  { unfold Cleaner.process_row.
    destruct (i =? 0) eqn:E0; [apply Z.eqb_eq in E0; lia|].
    destruct (i =? 1) eqn:E1; [apply Z.eqb_eq in E1; lia|].
    unfold Cleaner.make_data_row. rewrite Hty. cbn [mbind result_bind].
    by rewrite unregistered_lookup. }
  split; [exact Hrow|]. cbn [Cleaner.run]. by rewrite Hrow.
Qed.

Lemma unregistered_survey_type_raises_witness :
  Cleaner.process_row 2 (sample_row "Grammar School only (k-6)")
  = Raise (KeyError "Grammar School only (k-6)")
  ∧ Cleaner.run 2 [sample_row "Grammar School only (k-6)";
                   sample_row "Grammar School only (K-6)"] []
    = ([], Some (KeyError "Grammar School only (k-6)")).
Proof.
  refine (proj2 (unregistered_survey_type_raises
                   2 (sample_row "Grammar School only (k-6)")
                   "Grammar School only (k-6)"
                   [sample_row "Grammar School only (K-6)"] [] _ _ _)).
  - vm_compute. discriminate.
  - reflexivity.
  - vm_compute. intros H.
    repeat (apply elem_of_cons in H as [H|H]; [discriminate H|]).
    by apply elem_of_nil in H.
Defined.

(** ** Worked examples *)

Example col_to_index_K : col_to_index "K" = Ok 10.
Proof. reflexivity. Qed.

Example col_to_index_ef : col_to_index "ef" = Ok 135.
Proof. reflexivity. Qed.

Example col_to_index_digit : col_to_index "A1" = Raise AssertionError.
Proof. reflexivity. Qed.

Example grammar_only_row :
  Cleaner.process_row 2 (sample_row "Grammar School only (K-6)")
  = Ok (replicate 10 "" ++ ["Grammar School only (K-6)"]
        ++ ["11"; "12"; "13"; "14"; "15"; "16"; "17"; "18"; "20"]
        ++ replicate 18 ""
        ++ ["19"; "21"; "133"; "134"; "135"]).
Proof. vm_compute. reflexivity. Qed.

Example short_row_raises :
  Cleaner.process_row 2 (take 100 (sample_row "Grammar School only (K-6)"))
  = Raise IndexError.
Proof. vm_compute. reflexivity. Qed.
(** * Further properties *)

(** ** Column addressing *)

Lemma list_ascii_of_string_app (s t : string) :
  list_ascii_of_string (String.append s t)
  = list_ascii_of_string s ++ list_ascii_of_string t.
Proof. induction s as [|c s IH]; simpl; [done | by rewrite IH]. Qed.

Lemma list_ascii_of_string_length (s : string) :
  length (list_ascii_of_string s) = String.length s.
Proof. induction s as [|c s IH]; simpl; [done | by rewrite IH]. Qed.

Lemma bijective_value_snoc (l : list ascii) (c : ascii) :
  bijective_value (l ++ [c]) = 26 * bijective_value l + letter_value c.
Proof.
  induction l as [|x l IH]; [simpl; lia|].
  cbn [app bijective_value]. rewrite IH, length_app. simpl length.
  rewrite Nat.add_1_r, Nat2Z.inj_succ, Z.pow_succ_r by lia. lia.
Qed.

(** Case normalisation of a letter is determined by its value. *)
Lemma upper_char_of_value c :
  is_letter c = true →
  Py.upper_char c = ascii_of_N (Z.to_N (letter_value c + 64)).
Proof.
  destruct c as [[] [] [] [] [] [] [] []]; vm_compute; intros H;
    (discriminate H || reflexivity).
Qed.

Lemma upper_of_values (a : list ascii) : ∀ b,
  forallb is_letter a = true → forallb is_letter b = true →
  map letter_value a = map letter_value b →
  map Py.upper_char a = map Py.upper_char b.
Proof.
  induction a as [|x a IH]; intros [|y b] Ha Hb Heq; try discriminate; [done|].
  simpl in *. apply andb_prop in Ha as [Hx Ha]. apply andb_prop in Hb as [Hy Hb].
  injection Heq as Hxy Heq.
  rewrite (upper_char_of_value x Hx), (upper_char_of_value y Hy), Hxy.
  f_equal. by apply IH.
Qed.

Lemma lex_trichotomy (a : list Z) : ∀ b,
  length a = length b →
  lex_ltb a b = true ∨ a = b ∨ lex_ltb b a = true.
Proof.
  induction a as [|x a IH]; intros [|y b] Hlen; try discriminate; [by right; left|].
  injection Hlen as Hlen. simpl.
  destruct (Z.lt_trichotomy x y) as [Hlt|[->|Hgt]].
  - left. apply orb_true_iff. left. by apply Z.ltb_lt.
  - rewrite Z.ltb_irrefl, Z.eqb_refl. simpl.
    destruct (IH b Hlen) as [?|[->|?]]; auto.
  - right; right. apply orb_true_iff. left. by apply Z.ltb_lt.
Qed.

Lemma bijective_value_inj (a b : list ascii) :
  forallb is_letter a = true → forallb is_letter b = true →
  bijective_value a = bijective_value b →
  map letter_value a = map letter_value b.
Proof.
  intros Ha Hb Heq.
  destruct (Nat.lt_trichotomy (length a) (length b)) as [Hlt|[Hlen|Hgt]].
  - pose proof (shorter_label_smaller a b Ha Hb Hlt). lia.
  - destruct (lex_trichotomy (map letter_value a) (map letter_value b))
      as [Hlt|[Hab|Hgt]]; [by rewrite !length_map| |done|].
    + pose proof (lex_label_smaller a b Ha Hb Hlen Hlt). lia.
    + pose proof (lex_label_smaller b a Hb Ha (eq_sym Hlen) Hgt). lia.
  - pose proof (shorter_label_smaller b a Hb Ha Hgt). lia.
Qed.

(** X1: two labels made of letters get the same index exactly when they
    are the same label up to case: no two spreadsheet columns collide. *)
Theorem col_to_index_injective (a b : string) :
  all_letters a = true → all_letters b = true →
  (col_to_index a = col_to_index b ↔ Py.upper a = Py.upper b).
Proof.
  intros Ha Hb. split.
  - rewrite !col_to_index_letters by done. intros Heq.
    injection Heq as Heq. unfold Py.upper.
    apply upper_of_values; try done.
    apply bijective_value_inj; try done. unfold bijective_base26 in Heq. lia.
  - intros Heq. unfold col_to_index. by rewrite Heq.
Qed.

Lemma col_to_index_injective_witness :
  col_to_index "Ab" = col_to_index "aB"
  ∧ (col_to_index "AB" = col_to_index "BA" → False).
Proof.
  split.
  - apply (proj2 (col_to_index_injective "Ab" "aB" eq_refl eq_refl)).
    reflexivity.
  - intros H.
    apply (proj1 (col_to_index_injective "AB" "BA" eq_refl eq_refl)) in H.
    vm_compute in H. discriminate H.
Defined.

(** X2: appending one letter to a label of letters multiplies the column
    number by 26 and adds the letter's value: with [i] the index of the
    label, the index of the longer label is [26 * (i + 1) + value - 1]. *)
Theorem col_to_index_append_letter (label : string) (c : ascii) :
  all_letters label = true → is_letter c = true →
  ∃ i,
    col_to_index label = Ok i
    ∧ col_to_index (String.append label (String c ""))
      = Ok (26 * (i + 1) + letter_value c - 1).
Proof.
  intros Hl Hc. exists (bijective_base26 label - 1).
  split; [by apply col_to_index_letters|].
  rewrite col_to_index_letters.
  - unfold bijective_base26. rewrite list_ascii_of_string_app. simpl.
    rewrite bijective_value_snoc. f_equal. lia.
  - unfold all_letters in *. rewrite list_ascii_of_string_app, forallb_app.
    simpl. by rewrite Hl, Hc.
Qed.

Lemma col_to_index_append_letter_witness :
  ∃ i, col_to_index "E" = Ok i ∧ col_to_index "Ef" = Ok (26 * (i + 1) + 6 - 1).
Proof.
  exact (col_to_index_append_letter "E" "f" eq_refl eq_refl).
Defined.

(** X3: a label of [n >= 1] letters gets an index that is not negative and
    lies in the block of the [n]-letter columns:
    [(26^n - 26)/25 <= index <= (26^(n+1) - 51)/25]. *)
Theorem col_to_index_range (label : string) :
  is_label label = true →
  ∃ i,
    col_to_index label = Ok i
    ∧ 0 ≤ i
    ∧ 26 ^ Z.of_nat (String.length label) - 26 ≤ 25 * i
    ∧ 25 * i ≤ 26 ^ (Z.of_nat (String.length label) + 1) - 51.
Proof.
  unfold is_label. intros H. apply andb_prop in H as [Hne Hl].
  exists (bijective_base26 label - 1).
  split; [by apply col_to_index_letters|].
  pose proof (bijective_value_bounds _ Hl) as [Hlo Hhi].
  rewrite list_ascii_of_string_length in Hlo, Hhi.
  fold (bijective_base26 label) in Hlo, Hhi.
  assert (1 ≤ Z.of_nat (String.length label)) as Hn.
  { destruct label; [discriminate Hne|]. simpl. lia. }
  assert (26 ^ 1 ≤ 26 ^ Z.of_nat (String.length label))
    by (apply Z.pow_le_mono_r; lia).
  rewrite Z.pow_add_r by lia. change (26 ^ 1) with 26 in *. lia.
Qed.

Lemma col_to_index_range_witness :
  ∃ i, col_to_index "zz" = Ok i ∧ 0 ≤ i ∧ 650 ≤ 25 * i ∧ 25 * i ≤ 17525.
Proof.
  exact (col_to_index_range "zz" eq_refl).
Defined.

(** ** Reader construction *)





(** ** Round-robin dealing *)

Lemma div_eq (a n q r : Z) : 0 ≤ r < n → a = n * q + r → a / n = q.
Proof. intros Hr Ha. symmetry. apply (Z.div_unique a n q r); [by left|done]. Qed.

Lemma dealt_count_succ (n k m : Z) :
  0 ≤ k < n → 0 ≤ m →
  dealt_count n k (m + 1)
  = dealt_count n k m + (if decide (m `mod` n = k) then 1 else 0).
Proof.
  intros Hk Hm. unfold dealt_count.
  pose proof (Z.div_mod m n ltac:(lia)) as Hdm.
  pose proof (Z.mod_pos_bound m n ltac:(lia)) as Hr.
  revert Hdm Hr. generalize (m `mod` n) (m / n). intros r q Hdm Hr.
  case_decide as Hmod.
  - rewrite (div_eq (m + 1 + n - 1 - k) n (q + 1) 0) by lia.
    rewrite (div_eq (m + n - 1 - k) n q (n - 1)) by lia. done.
  - destruct (decide (r < k)).
    + rewrite (div_eq (m + 1 + n - 1 - k) n q (r + n - k)) by lia.
      rewrite (div_eq (m + n - 1 - k) n q (r + n - 1 - k)) by lia. lia.
    + rewrite (div_eq (m + 1 + n - 1 - k) n (q + 1) (r - k)) by lia.
      rewrite (div_eq (m + n - 1 - k) n (q + 1) (r - 1 - k)) by lia. lia.
Qed.

Lemma dealt_count_nonneg (n k m : Z) :
  0 ≤ k < n → 0 ≤ m → 0 ≤ dealt_count n k m.
Proof. intros Hk Hm. unfold dealt_count. apply Z.div_pos; lia. Qed.

Lemma dealt_count_hit (n k m : Z) :
  0 ≤ k < n → 0 ≤ m → m `mod` n = k → k + n * dealt_count n k m = m.
Proof.
  intros Hk Hm Hmod. unfold dealt_count.
  pose proof (Z.div_mod m n ltac:(lia)) as Hdm. rewrite Hmod in Hdm.
  rewrite (div_eq (m + n - 1 - k) n (m / n) (n - 1)) by lia. lia.
Qed.

(** The offsets below [m] that are [k] modulo [n] are [k], [k + n],
    [k + 2n], ... *)
Lemma filter_mod_seqZ (n k : Z) (m : nat) :
  0 ≤ k < n →
  filter (λ i, i `mod` n = k) (seqZ 0 (Z.of_nat m))
  = (λ q, k + n * q) <$> seqZ 0 (dealt_count n k (Z.of_nat m)).
Proof.
  intros Hk. induction m as [|m IH].
  - change (Z.of_nat 0) with 0. unfold dealt_count.
    rewrite (div_eq (0 + n - 1 - k) n 0 (n - 1 - k)) by lia. done.
  - rewrite seqZ_S, filter_app, IH, Z.add_0_l.
    rewrite Nat2Z.inj_succ, <- Z.add_1_r, dealt_count_succ by lia.
    pose proof (dealt_count_nonneg n k (Z.of_nat m) Hk ltac:(lia)) as Hc.
    case_decide as Hmod.
    + rewrite filter_cons_True by done. rewrite filter_nil.
      rewrite seqZ_app by lia. rewrite fmap_app. f_equal.
      rewrite seqZ_cons by lia. rewrite seqZ_nil by lia. simpl.
      f_equal. rewrite Z.add_0_l. symmetry. apply dealt_count_hit; (done || lia).
    + rewrite filter_cons_False by done. rewrite filter_nil.
      by rewrite app_nil_r, Z.add_0_r.
Qed.

(** X6: the dealing loop is balanced, whatever the buckets and the range.
    Over [n] buckets and a range of [len] columns inside the row, bucket
    number [k] keeps what it held and gains [(len + n - 1 - k) / n] cells;
    the cell at offset [i] is the one gained in place [i / n] by bucket
    [i mod n]. *)
Theorem deal_balanced (row : list string) (args : list (list string))
    (first last : Z) (k : nat) (bucket : list string) :
  0 ≤ first → first ≤ last + 1 → last < Z.of_nat (length row) →
  args !! k = Some bucket →
  ∃ args' bucket',
    MultiDivisionReader.deal row args first last = Ok args'
    ∧ length args' = length args
    ∧ args' !! k = Some bucket'
    ∧ take (length bucket) bucket' = bucket
    ∧ Z.of_nat (length bucket')
      = Z.of_nat (length bucket)
        + dealt_count (Z.of_nat (length args)) (Z.of_nat k)
                      (last + 1 - first)
    ∧ ∀ i,
        0 ≤ i ≤ last - first →
        i `mod` Z.of_nat (length args) = Z.of_nat k →
        bucket' !! (length bucket + Z.to_nat (i / Z.of_nat (length args)))%nat
        = row !! Z.to_nat (first + i).
Proof.
  intros Hf Hfl Hl Hb.
  assert (args ≠ []) as Hne by (intros ->; discriminate Hb).
  assert (0 ≤ Z.of_nat k < Z.of_nat (length args)) as Hk
    by (apply lookup_lt_Some in Hb; lia).
  eexists _, _. split; [by apply deal_round_robin|].
  split; [apply length_dealt|].
  split; [by apply dealt_lookup|].
  rewrite <- (Z2Nat.id (last + 1 - first)) by lia.
  rewrite filter_mod_seqZ by done.
  rewrite Z2Nat.id by lia.
  pose proof (dealt_count_nonneg _ _ (last + 1 - first) Hk ltac:(lia)) as Hc.
  split; [by rewrite take_app_length|].
  split; [rewrite length_app, !length_map, length_seqZ; lia|].
  intros i Hi Hmod.
  rewrite lookup_app_r by lia.
  replace (length bucket + Z.to_nat (i / Z.of_nat (length args))
           - length bucket)%nat
    with (Z.to_nat (i / Z.of_nat (length args))) by lia.
  rewrite list_lookup_fmap, list_lookup_fmap.
  assert (0 ≤ i / Z.of_nat (length args)) as Hq by (apply Z.div_pos; lia).
  pose proof (Z.div_mod i (Z.of_nat (length args)) ltac:(lia)) as Hdm.
  rewrite lookup_seqZ_lt.
  2:{ rewrite Z2Nat.id by done. unfold dealt_count.
      assert (i / Z.of_nat (length args) + 1
              ≤ (last + 1 - first + Z.of_nat (length args) - 1 - Z.of_nat k)
                / Z.of_nat (length args));
        [apply Z.div_le_lower_bound; lia | lia]. }
  simpl. rewrite Z2Nat.id by done. rewrite Z.add_0_l.
  replace (Z.of_nat k + Z.of_nat (length args) * (i / Z.of_nat (length args)))
    with i by lia.
  unfold cell_at.
  destruct (row !! Z.to_nat (first + i)) as [x|] eqn:Hx.
  - f_equal. by apply nth_lookup_Some.
  - apply lookup_ge_None in Hx. lia.
Qed.

Lemma deal_balanced_witness :
  ∃ args',
    MultiDivisionReader.deal (sample_row "") [["g"]; ["m"]; []] 36 41
    = Ok args'
    ∧ args' !! 2%nat = Some ["38"; "41"].
Proof.
  destruct (deal_balanced (sample_row "") [["g"]; ["m"]; []] 36 41 2 [])
    as (args' & bucket' & Hdeal & _ & Hb & _).
  - vm_compute. discriminate.
  - vm_compute. discriminate.
  - vm_compute. reflexivity.
  - reflexivity.
  - exists args'. split; [exact Hdeal|].
    vm_compute in Hdeal. injection Hdeal as <-. reflexivity.
Defined.

(** ** What a reader reads *)

Lemma bind_ext {A B : Type} (m1 m2 : result A) (f1 f2 : A → result B) :
  m1 = m2 → (∀ x, f1 x = f2 x) → (x ← m1; f1 x) = (x ← m2; f2 x).
Proof. intros -> Hf. destruct m2; simpl; [apply Hf | done]. Qed.

Lemma for_each_ext_in {A S : Type} (b1 b2 : S → A → result S) (xs : list A) :
  (∀ s x, x ∈ xs → b1 s x = b2 s x) →
  ∀ s, for_each b1 xs s = for_each b2 xs s.
Proof.
  induction xs as [|x xs IH]; intros Hb s; [done|].
  cbn [for_each]. apply bind_ext.
  - apply Hb. apply list_elem_of_here.
  - intros s'. apply IH. intros ? ? ?. apply Hb. by apply list_elem_of_further.
Qed.

Lemma append_cell_same (cols : list Z) (row1 row2 : list string) :
  same_cells cols row1 row2 →
  ∀ args c, c ∈ cols → append_cell row1 args c = append_cell row2 args c.
Proof. intros Hs args c Hc. unfold append_cell. by rewrite (Hs c Hc). Qed.

Lemma same_cells_app_l cols1 cols2 row1 row2 :
  same_cells (cols1 ++ cols2) row1 row2 → same_cells cols1 row1 row2.
Proof. intros H c Hc. apply H. apply elem_of_app. by left. Qed.

Lemma same_cells_app_r cols1 cols2 row1 row2 :
  same_cells (cols1 ++ cols2) row1 row2 → same_cells cols2 row1 row2.
Proof. intros H c Hc. apply H. apply elem_of_app. by right. Qed.

Lemma deal_same (row1 row2 : list string) (first last : Z) :
  same_cells (Py.range first (last + 1)) row1 row2 →
  ∀ args,
    MultiDivisionReader.deal row1 args first last
    = MultiDivisionReader.deal row2 args first last.
Proof.
  intros Hs args. unfold MultiDivisionReader.deal.
  apply bind_ext; [|done]. apply for_each_ext_in.
  intros [bs j] i Hi. unfold MultiDivisionReader.deal_step.
  by rewrite (Hs i Hi).
Qed.

(** X7: a reader's result, value or exception, depends on the row only
    through the cells at the columns its layout names: two rows that agree
    there are read alike, whatever else they hold. *)
Theorem reader_locality (r : Reader) (row1 row2 : list string) :
  same_cells (referenced_columns r) row1 row2 →
  call r row1 = call r row2.
Proof.
  destruct r as [s|m]; cbn [referenced_columns]; intros Hs.
  - pose proof (same_cells_app_l _ _ _ _ Hs) as Hrange.
    pose proof (same_cells_app_r _ _ _ _ Hs) as Hrest.
    pose proof (same_cells_app_l _ _ _ _ Hrest) as Hsw.
    pose proof (same_cells_app_r _ _ _ _ Hrest) as Hwhole.
    change (call (Single s)) with (SingleDivisionReader.call s).
    unfold SingleDivisionReader.call.
    apply bind_ext.
    { apply for_each_ext_in. intros args c Hc.
      destruct (negb _); [|done]. by apply (append_cell_same _ _ _ Hrange). }
    intros args1. apply bind_ext.
    { apply (append_cell_same _ _ _ Hsw). apply list_elem_of_here. }
    intros args2. apply bind_ext.
    { apply (append_cell_same _ _ _ Hsw).
      apply list_elem_of_further, list_elem_of_here. }
    intros args3. apply bind_ext; [|done].
    apply for_each_ext_in. intros args c Hc.
    by apply (append_cell_same _ _ _ Hwhole).
  - pose proof (same_cells_app_l _ _ _ _ Hs) as Hcat.
    pose proof (same_cells_app_r _ _ _ _ Hs) as Hrest.
    pose proof (same_cells_app_l _ _ _ _ Hrest) as Hopen.
    pose proof (same_cells_app_r _ _ _ _ Hrest) as Hwhole.
    change (call (Multi m)) with (MultiDivisionReader.call m).
    unfold MultiDivisionReader.call.
    apply bind_ext; [by apply deal_same|].
    intros args1. apply bind_ext; [by apply deal_same|].
    intros args2. apply bind_ext; [done|].
    intros whole. apply bind_ext; [|done].
    apply for_each_ext_in. intros args c Hc.
    by apply (append_cell_same _ _ _ Hwhole).
Qed.

Lemma reader_locality_witness :
  sample_row "one" ≠ sample_row "another"
  ∧ call (Multi grammar_middle_reader) (sample_row "one")
    = call (Multi grammar_middle_reader) (sample_row "another").
Proof.
  split; [vm_compute; discriminate|].
  apply reader_locality. intros c Hc. vm_compute in Hc.
  repeat (apply elem_of_cons in Hc as [->|Hc]; [vm_compute; reflexivity|]).
  by apply elem_of_nil in Hc.
Defined.

(** ** Exceptions of the readers *)

Lemma raises_only_bind {A B : Type} (e : exn) (m : result A)
    (f : A → result B) :
  raises_only e m → (∀ x, raises_only e (f x)) → raises_only e (x ← m; f x).
Proof. destruct m as [x|e']; simpl; [auto | done]. Qed.

Lemma bind_raise {A B : Type} (e : exn) (m : result A) (f : A → result B) :
  raises_only e m → (∀ x, f x = Raise e) → (x ← m; f x) = Raise e.
Proof. destruct m as [x|e']; simpl; [auto | by intros ->]. Qed.

Lemma index_raises_only {A : Type} (l : list A) (i : Z) :
  raises_only IndexError (Py.index l i).
Proof.
  unfold Py.index.
  destruct (0 <=? i); [by destruct (l !! _)|].
  destruct (0 <=? _); [by destruct (l !! _) | done].
Qed.

Lemma index_out_of_range {A : Type} (l : list A) (i : Z) :
  Z.of_nat (length l) ≤ i → Py.index l i = Raise IndexError.
Proof.
  intros Hi. unfold Py.index.
  destruct (0 <=? i) eqn:E; [|apply Z.leb_gt in E; lia].
  destruct (l !! Z.to_nat i) eqn:El; [|done].
  apply lookup_lt_Some in El. lia.
Qed.

Lemma append_cell_raises_only row args c :
  raises_only IndexError (append_cell row args c).
Proof.
  unfold append_cell. apply raises_only_bind; [apply index_raises_only|done].
Qed.

(** A loop whose body keeps an invariant and raises nothing but [e]
    raises nothing but [e]. *)
Lemma for_each_raises_only {A S : Type} (e : exn) (Inv : S → Prop)
    (body : S → A → result S) (xs : list A) :
  (∀ s x, Inv s → raises_only e (body s x)) →
  (∀ s x s', Inv s → body s x = Ok s' → Inv s') →
  ∀ s, Inv s → raises_only e (for_each body xs s).
Proof.
  intros Hr Hi. induction xs as [|x xs IH]; intros s Hs; [done|].
  cbn [for_each]. specialize (Hr s x Hs).
  destruct (body s x) as [s'|e'] eqn:Hb; simpl; [|done].
  apply IH. by eapply Hi.
Qed.

(** It raises [e] when the body does so at some element. *)
Lemma for_each_raise {A S : Type} (e : exn) (body : S → A → result S)
    (xs : list A) (bad : A) :
  (∀ s x, raises_only e (body s x)) →
  bad ∈ xs → (∀ s, body s bad = Raise e) →
  ∀ s, for_each body xs s = Raise e.
Proof.
  intros Hr Hin Hbad. induction xs as [|x xs IH]; intros s.
  - by apply elem_of_nil in Hin.
  - cbn [for_each]. apply elem_of_cons in Hin as [<-|Hin].
    + by rewrite Hbad.
    + apply bind_raise; [apply Hr | by apply IH].
Qed.

Lemma whole_loop_raise row cols bad args :
  bad ∈ cols → Z.of_nat (length row) ≤ bad →
  for_each (append_cell row) cols args = Raise IndexError.
Proof.
  intros Hin Hbad. apply (for_each_raise _ _ _ bad); [|done|].
  - intros. apply append_cell_raises_only.
  - intros s. unfold append_cell. by rewrite index_out_of_range.
Qed.

Lemma deal_step_raises_only row args j i :
  args ≠ [] → 0 ≤ j →
  raises_only IndexError (MultiDivisionReader.deal_step row (args, j) i).
Proof.
  intros Hne Hj. unfold MultiDivisionReader.deal_step.
  destruct (_ =? 0) eqn:E; [apply Z.eqb_eq in E; by destruct args|].
  apply raises_only_bind; [apply index_raises_only|]. intros bucket.
  apply raises_only_bind; [apply index_raises_only|]. intros x.
  rewrite set_item_insert; [done|].
  apply Z.mod_pos_bound. destruct args; [done|simpl; lia].
Qed.

Lemma deal_step_keeps row args j i args' j' :
  args ≠ [] → 0 ≤ j →
  MultiDivisionReader.deal_step row (args, j) i = Ok (args', j') →
  args' ≠ [] ∧ 0 ≤ j'.
Proof.
  intros Hne Hj. unfold MultiDivisionReader.deal_step.
  destruct (_ =? 0) eqn:E; [done|]. intros H.
  apply bind_Ok in H as (bucket & _ & H).
  apply bind_Ok in H as (x & _ & H).
  rewrite set_item_insert in H.
  2:{ apply Z.mod_pos_bound. destruct args; [done|simpl; lia]. }
  injection H as <- <-. split; [|lia].
  intros Heq. apply (f_equal length) in Heq. rewrite length_insert in Heq.
  by destruct args.
Qed.

Lemma deal_raises_only row args first last :
  args ≠ [] →
  raises_only IndexError (MultiDivisionReader.deal row args first last).
Proof.
  intros Hne. unfold MultiDivisionReader.deal.
  apply raises_only_bind; [|done].
  apply (for_each_raises_only _ (λ st, fst st ≠ [] ∧ 0 ≤ snd st)).
  - intros [bs j] i [Hb Hj]. by apply deal_step_raises_only.
  - intros [bs j] i [bs' j'] [Hb Hj] Hstep. by eapply deal_step_keeps.
  - done.
Qed.

(** X8: a data row that is too short raises [IndexError].  That is so when
    the row has no survey-type cell, and when its survey type is registered
    but the row ends before the last column of that layout. *)
Theorem short_row_raises_IndexError (i : Z) (row : list string) :
  2 ≤ i →
  ((length row ≤ 10)%nat → Cleaner.process_row i row = Raise IndexError)
  ∧ (∀ entry,
       registered entry →
       Py.index row ROW_INDEX_SURVEY_TYPE = Ok (survey_type entry) →
       ¬ long_enough (reader entry) row →
       call (reader entry) row = Raise IndexError
       ∧ Cleaner.process_row i row = Raise IndexError).
Proof.
  intros Hi.
  assert (Cleaner.process_row i row = Cleaner.make_data_row row) as ->.
  { unfold Cleaner.process_row.
    destruct (i =? 0) eqn:E0; [apply Z.eqb_eq in E0; lia|].
    destruct (i =? 1) eqn:E1; [apply Z.eqb_eq in E1; lia|]. done. }
  split.
  - intros Hlen. unfold Cleaner.make_data_row.
    rewrite index_out_of_range; [done|].
    change ROW_INDEX_SURVEY_TYPE with 10. lia.
  - intros entry Hr Hty Hshort.
    assert (call (reader entry) row = Raise IndexError) as Hcall.
    { clear Hty. registry_cases Hr; cbn [reader] in *.
      all: unfold long_enough in Hshort.
      all: match type of Hshort with
           | ¬ (max_column ?r < _) =>
               let v := eval vm_compute in (max_column r) in
               change (max_column r) with v in Hshort
           end.
      1-3: change (call (Single ?s)) with (SingleDivisionReader.call s);
        unfold SingleDivisionReader.call;
        cbn [SingleDivisionReader.whole_school_cols];
        apply bind_raise;
          [apply (for_each_raises_only _ (λ _, True)); try done;
           intros; destruct (negb _); [apply append_cell_raises_only|done]|];
        intros ?; apply bind_raise; [apply append_cell_raises_only|];
        intros ?; apply bind_raise; [apply append_cell_raises_only|];
        intros ?; rewrite (whole_loop_raise _ _ 135); [done| |lia];
        do 4 apply list_elem_of_further; apply list_elem_of_here.
      all: change (call (Multi ?m)) with (MultiDivisionReader.call m);
        unfold MultiDivisionReader.call;
        cbn [MultiDivisionReader.whole_school_cols
             MultiDivisionReader.divisions];
        apply bind_raise; [by apply deal_raises_only|];
        intros ?; apply bind_raise;
          [apply deal_raises_only, snoc_nonempty|];
        intros ?; apply bind_raise; [apply index_raises_only|];
        intros ?; rewrite (whole_loop_raise _ _ 135); [done| |lia];
        do 2 apply list_elem_of_further; apply list_elem_of_here. }
    split; [exact Hcall|].
    unfold Cleaner.make_data_row. rewrite Hty. cbn [mbind result_bind].
    unfold dict_get. rewrite Hr. cbn [mbind result_bind].
    by rewrite Hcall.
Qed.

Lemma short_row_raises_IndexError_witness :
  Cleaner.process_row 2 ["only"; "three"; "cells"] = Raise IndexError
  ∧ Cleaner.process_row
      2 (take 135 (sample_row (survey_type grammar_middle_entry)))
    = Raise IndexError.
Proof.
  destruct (short_row_raises_IndexError 2 ["only"; "three"; "cells"])
    as [Hnone _]; [vm_compute; discriminate|].
  destruct (short_row_raises_IndexError
              2 (take 135 (sample_row (survey_type grammar_middle_entry))))
    as [_ Hshort]; [vm_compute; discriminate|].
  split.
  - apply Hnone. vm_compute. lia.
  - refine (proj2 (Hshort grammar_middle_entry _ _ _)).
    + vm_compute. reflexivity.
    + reflexivity.
    + vm_compute. discriminate.
Defined.

(** ** The single-division reader on any layout *)

Lemma index_in_row (row : list string) (c : Z) :
  0 ≤ c < Z.of_nat (length row) → Py.index row c = Ok (cell_at row 0 c).
Proof.
  intros Hc. apply index_lookup; [lia|]. unfold cell_at. rewrite Z.add_0_l.
  destruct (row !! Z.to_nat c) as [x|] eqn:Hx.
  - f_equal. symmetry. by apply nth_lookup_Some.
  - apply lookup_ge_None in Hx. lia.
Qed.

Lemma columns_in_row_check (cols : list Z) (row : list string) :
  forallb (λ c, (0 <=? c) && (c <? Z.of_nat (length row))) cols = true →
  columns_in_row cols row.
Proof.
  intros H. apply Forall_forall. intros c Hc.
  rewrite forallb_forall in H. specialize (H c).
  rewrite <- list_elem_of_In in H. specialize (H Hc).
  apply andb_prop in H as [H1 H2].
  apply Z.leb_le in H1. apply Z.ltb_lt in H2. lia.
Qed.

Lemma append_cell_in_row (row args : list string) (c : Z) :
  0 ≤ c < Z.of_nat (length row) →
  append_cell row args c = Ok (args ++ [cell_at row 0 c]).
Proof. intros Hc. unfold append_cell. by rewrite index_in_row. Qed.

Lemma append_cell_loop (row : list string) (cols : list Z) :
  columns_in_row cols row →
  ∀ args,
    for_each (append_cell row) cols args
    = Ok (args ++ map (cell_at row 0) cols).
Proof.
  induction cols as [|c cols IH]; intros Hin args.
  - simpl. by rewrite app_nil_r.
  - apply Forall_cons in Hin as [Hc Hin]. cbn [for_each map].
    rewrite append_cell_in_row by done.
    cbn [mbind result_bind]. rewrite IH by done. by rewrite <- app_assoc.
Qed.

Lemma filtered_loop (row : list string) (keep : Z → bool) (cols : list Z) :
  columns_in_row (List.filter keep cols) row →
  ∀ args,
    for_each (λ args col,
                if keep col then append_cell row args col else Ok args)
             cols args
    = Ok (args ++ map (cell_at row 0) (List.filter keep cols)).
Proof.
  induction cols as [|c cols IH]; intros Hin args.
  - simpl. by rewrite app_nil_r.
  - cbn [for_each List.filter] in *. destruct (keep c).
    + apply Forall_cons in Hin as [Hc Hin].
      rewrite append_cell_in_row by done.
      cbn [mbind result_bind map]. rewrite IH by done.
      by rewrite <- app_assoc.
    + cbn [mbind result_bind]. by apply IH.
Qed.

Lemma new_decide (cls : namedtuple_class) (args : list string) :
  new cls args
  = if (length args =? length (cls_fields cls))%nat
    then Ok {| nt_class := cls; nt_values := args |}
    else Raise TypeError.
Proof. done. Qed.

(** The result of a single-division reader on a row that has every column
    the reader reads. *)
Lemma single_call_eq (s : SingleDivisionReader.t) (row : list string) :
  columns_in_row (single_read_columns s) row →
  SingleDivisionReader.call s row
  = if negb (length (SingleDivisionReader.whole_school_cols s) =? 5)%nat
    then Raise TypeError
    else if known_division (SingleDivisionReader.division s)
            && negb (length (categorical_columns s) =? 7)%nat
    then Raise TypeError
    else Ok [single_slot s row GRAMMAR; single_slot s row MIDDLE;
             single_slot s row HIGH; Some (single_whole_record s row)].
Proof.
  unfold single_read_columns, columns_in_row. rewrite !Forall_app.
  intros (Hcat & Hsw & Hwhole).
  apply Forall_cons in Hsw as [Hst Hsw]. apply Forall_cons in Hsw as [Hwk _].
  unfold SingleDivisionReader.call.
  rewrite (filtered_loop row
             (λ c, negb (Py.contains
                           (SingleDivisionReader.whole_school_cols s) c)))
    by exact Hcat.
  cbn [mbind result_bind]. rewrite append_cell_in_row by done.
  cbn [mbind result_bind]. rewrite append_cell_in_row by done.
  cbn [mbind result_bind].
  rewrite append_cell_loop by done. cbn [mbind result_bind app].
  rewrite (new_decide WholeSchoolAnswers). cbn [cls_fields WholeSchoolAnswers].
  rewrite length_map. change (length WHOLE_SCHOOL_ARGS) with 5%nat.
  destruct (length (SingleDivisionReader.whole_school_cols s) =? 5)%nat;
    [|done].
  cbn [negb mbind result_bind].
  unfold known_division, DIVISION_TO_INDEX, single_slot.
  cbn [for_each existsb fst]. rewrite ?(new_decide DivisionAnswers).
  change empty_division_answers with (Ok empty_record).
  cbn [cls_fields DivisionAnswers length].
  rewrite <- !app_assoc. cbn [app]. rewrite !length_app, !length_map.
  fold (categorical_columns s). cbn [length].
  change (length DIVISION_DATA_ARGS) with 9%nat.
  replace (S (length (categorical_columns s) + 2) =? 10)%nat
    with (length (categorical_columns s) =? 7)%nat
    by (destruct (Nat.eqb_spec (length (categorical_columns s)) 7);
        symmetry; [apply Nat.eqb_eq | apply Nat.eqb_neq]; lia).
  unfold single_division_record. rewrite map_app. cbn [map].
  destruct (length (categorical_columns s) =? 7)%nat;
    destruct (GRAMMAR =? SingleDivisionReader.division s)%string;
    destruct (MIDDLE =? SingleDivisionReader.division s)%string;
    destruct (HIGH =? SingleDivisionReader.division s)%string;
    reflexivity.
Qed.

(** X9: on any layout, registered or not, and any row that has every
    column the reader reads, a single-division reader with 7 categorical
    columns and 5 whole-school columns returns, for its own division, the
    division's name, the cells of the categorical columns in column order
    and the strengths and weaknesses cells; for the other divisions the
    empty record; and the cells of the whole-school columns in configured
    order. *)
Theorem single_reader_content (s : SingleDivisionReader.t)
    (row : list string) :
  columns_in_row (single_read_columns s) row →
  length (categorical_columns s) = 7%nat →
  length (SingleDivisionReader.whole_school_cols s) = 5%nat →
  call (Single s) row
  = Ok [single_slot s row GRAMMAR; single_slot s row MIDDLE;
        single_slot s row HIGH; Some (single_whole_record s row)].
Proof.
  intros Hin Hcat Hwhole.
  change (call (Single s) row) with (SingleDivisionReader.call s row).
  rewrite single_call_eq by done. rewrite Hcat, Hwhole. simpl.
  by rewrite andb_false_r.
Qed.

Lemma single_reader_content_witness :
  call (Single middle_only_reader) (sample_row "")
  = Ok [Some empty_record;
        Some {| nt_class := DivisionAnswers;
                nt_values := ["middle"; "91"; "92"; "93"; "94"; "95"; "96";
                              "97"; "98"; "100"] |};
        Some empty_record;
        Some {| nt_class := WholeSchoolAnswers;
                nt_values := ["99"; "101"; "133"; "134"; "135"] |}].
Proof.
  refine (single_reader_content middle_only_reader (sample_row "") _ _ _).
  - apply columns_in_row_check. vm_compute. reflexivity.
  - reflexivity.
  - reflexivity.
Defined.

(** X10: a single-division layout of the wrong size raises [TypeError] on
    a row that has every column the reader reads: when it does not name 5
    whole-school columns, and when its division is one of the three known
    ones and it does not read 7 categorical columns.  A layout for an
    unknown division, with 5 whole-school columns, raises nothing and
    returns three empty records. *)
Theorem single_reader_arity (s : SingleDivisionReader.t)
    (row : list string) :
  columns_in_row (single_read_columns s) row →
  (length (SingleDivisionReader.whole_school_cols s) ≠ 5%nat →
   call (Single s) row = Raise TypeError)
  ∧ (length (SingleDivisionReader.whole_school_cols s) = 5%nat →
     known_division (SingleDivisionReader.division s) = true →
     length (categorical_columns s) ≠ 7%nat →
     call (Single s) row = Raise TypeError)
  ∧ (length (SingleDivisionReader.whole_school_cols s) = 5%nat →
     known_division (SingleDivisionReader.division s) = false →
     call (Single s) row
     = Ok [Some empty_record; Some empty_record; Some empty_record;
           Some (single_whole_record s row)]).
Proof.
  intros Hin.
  change (call (Single s) row) with (SingleDivisionReader.call s row).
  rewrite single_call_eq by done. repeat split.
  - intros Hw. apply Nat.eqb_neq in Hw. by rewrite Hw.
  - intros Hw Hk Hc. apply Nat.eqb_neq in Hc. by rewrite Hw, Hk, Hc.
  - intros Hw Hk. rewrite Hw, Hk. simpl.
    unfold known_division, DIVISION_TO_INDEX in Hk. cbn [existsb fst] in Hk.
    rewrite orb_false_r in Hk.
    apply orb_false_iff in Hk as [Hg Hk].
    apply orb_false_iff in Hk as [Hm Hh].
    unfold single_slot. by rewrite Hg, Hm, Hh.
Qed.

Lemma single_reader_arity_witness :
  call (Single three_whole_columns_reader) (sample_row "") = Raise TypeError.
Proof.
  refine (proj1 (single_reader_arity three_whole_columns_reader
                   (sample_row "") _) _).
  - apply columns_in_row_check. vm_compute. reflexivity.
  - vm_compute. lia.
Defined.

(** ** Division names *)

(** X11: for every registered layout and any row long enough, the record
    at a division's index carries that division's name when the layout
    addresses the division, and the empty string when it does not. *)
Theorem division_name_tag (entry : SurveyReader) (row : list string)
    (d : string) (v : Z) :
  registered entry → long_enough (reader entry) row →
  (d, v) ∈ DIVISION_TO_INDEX →
  ∃ out a,
    call (reader entry) row = Ok out
    ∧ Py.index out v = Ok a
    ∧ getattr a "division_name"
      = Ok (if Py.contains_str (configured_divisions (reader entry)) d
            then d else "").
Proof.
  intros Hr Hl Hd. unfold DIVISION_TO_INDEX in Hd.
  repeat (apply elem_of_cons in Hd as [Hd|Hd]);
    [..|by apply elem_of_nil in Hd].
  all: injection Hd as -> ->.
  all: registry_cases Hr; cbn [reader] in *.
  all: column_bound Hl; long_row Hl.
  all: eexists _, _; split; [vm_compute; reflexivity|].
  all: split; vm_compute; reflexivity.
Qed.

Lemma division_name_tag_witness :
  ∃ out a,
    call (reader grammar_middle_entry)
         (sample_row (survey_type grammar_middle_entry)) = Ok out
    ∧ Py.index out 1 = Ok a
    ∧ getattr a "division_name" = Ok "middle".
Proof.
  refine (division_name_tag grammar_middle_entry _ MIDDLE 1 _ _ _).
  - vm_compute. reflexivity.
  - vm_compute. reflexivity.
  - apply list_elem_of_further, list_elem_of_here.
Defined.

(** ** Assembling a data row *)

Lemma append_attr_Ok (answers : option namedtuple)
    (output_row : list string) (attr x : string) :
  getattr answers attr = Ok x →
  Cleaner.append_attr answers output_row attr = Ok (output_row ++ [x]).
Proof. intros H. unfold Cleaner.append_attr. by rewrite H. Qed.

Lemma append_attr_loop (answers : option namedtuple) (attrs : list string) :
  ∀ data output_row,
    map_each (getattr answers) attrs = Ok data →
    for_each (Cleaner.append_attr answers) attrs output_row
    = Ok (output_row ++ data).
Proof.
  induction attrs as [|attr attrs IH]; intros data output_row H.
  - injection H as <-. simpl. by rewrite app_nil_r.
  - cbn [map_each] in H. apply bind_Ok in H as (x & Hx & H).
    apply bind_Ok in H as (xs & Hxs & H). injection H as <-.
    cbn [for_each]. rewrite (append_attr_Ok _ _ _ x) by done.
    cbn [mbind result_bind]. rewrite (IH xs) by done.
    by rewrite <- app_assoc.
Qed.

Lemma map_each_length {A B : Type} (f : A → result B) (xs : list A)
    (ys : list B) :
  map_each f xs = Ok ys → length ys = length xs.
Proof.
  revert ys. induction xs as [|x xs IH]; intros ys H.
  - by injection H as <-.
  - cbn [map_each] in H. apply bind_Ok in H as (y & _ & H).
    apply bind_Ok in H as (ys' & Hys & H). injection H as <-.
    simpl. by rewrite (IH ys').
Qed.

(** The data row is put together from the reader's result: the input row's first 11 cells, then the 9
    data fields of the grammar, the middle and the high record, then the 5
    fields of the whole-school record. *)
Lemma make_data_row_eq (row : list string) (ty : string)
    (entry : SurveyReader) (g m h w : option namedtuple)
    (gd md hd wd : list string) :
  Py.index row ROW_INDEX_SURVEY_TYPE = Ok ty →
  SURVEY_READERS !! ty = Some entry →
  call (reader entry) row = Ok [g; m; h; w] →
  map_each (getattr g) DIVISION_DATA_ARGS = Ok gd →
  map_each (getattr m) DIVISION_DATA_ARGS = Ok md →
  map_each (getattr h) DIVISION_DATA_ARGS = Ok hd →
  map_each (getattr w) WHOLE_SCHOOL_ARGS = Ok wd →
  Cleaner.make_data_row row = Ok (take 11 row ++ gd ++ md ++ hd ++ wd).
Proof.
  intros Hty Hentry Hcall Hg Hm Hh Hw. unfold Cleaner.make_data_row.
  rewrite Hty. cbn [mbind result_bind].
  unfold dict_get. rewrite Hentry. cbn [mbind result_bind].
  rewrite Hcall. cbn [mbind result_bind].
  change (col_to_index "K") with (Ok 10). cbn [mbind result_bind].
  change (10 + 1) with (Z.of_nat 11). rewrite slice_to_take.
  change (Py.slice_to [g; m; h; w] 3) with [g; m; h].
  cbn [for_each].
  rewrite (append_attr_loop g _ gd) by done. cbn [mbind result_bind].
  rewrite (append_attr_loop m _ md) by done. cbn [mbind result_bind].
  rewrite (append_attr_loop h _ hd) by done. cbn [mbind result_bind].
  rewrite (for_each_ext_in _ (Cleaner.append_attr w)) by done.
  rewrite (append_attr_loop w _ wd) by done. cbn [mbind result_bind].
  by rewrite <- !app_assoc.
Qed.

(** X12: the data row written out is put together from the reader's
    result and nothing else: the input row's first 11 cells, then the 9
    data fields of the grammar, the middle and the high record, then the 5
    fields of the whole-school record. *)
Theorem data_row_assembly (row : list string) (ty : string)
    (entry : SurveyReader) (g m h w : option namedtuple)
    (gd md hd wd : list string) :
  Py.index row ROW_INDEX_SURVEY_TYPE = Ok ty →
  SURVEY_READERS !! ty = Some entry →
  call (reader entry) row = Ok [g; m; h; w] →
  map_each (getattr g) DIVISION_DATA_ARGS = Ok gd →
  map_each (getattr m) DIVISION_DATA_ARGS = Ok md →
  map_each (getattr h) DIVISION_DATA_ARGS = Ok hd →
  map_each (getattr w) WHOLE_SCHOOL_ARGS = Ok wd →
  Cleaner.make_data_row row = Ok (take 11 row ++ gd ++ md ++ hd ++ wd)
  ∧ length (gd ++ md ++ hd ++ wd) = 32%nat.
Proof.
  intros Hty Hentry Hcall Hg Hm Hh Hw.
  split; [by eapply make_data_row_eq|].
  pose proof (map_each_length _ _ _ Hg). pose proof (map_each_length _ _ _ Hm).
  pose proof (map_each_length _ _ _ Hh). pose proof (map_each_length _ _ _ Hw).
  rewrite !length_app.
  change (length DIVISION_DATA_ARGS) with 9%nat in *.
  change (length WHOLE_SCHOOL_ARGS) with 5%nat in *. lia.
Qed.

Lemma data_row_assembly_witness :
  Cleaner.make_data_row (sample_row "Middle School only (7-8)")
  = Ok (take 11 (sample_row "Middle School only (7-8)")
        ++ replicate 9 ""
        ++ ["91"; "92"; "93"; "94"; "95"; "96"; "97"; "98"; "100"]
        ++ replicate 9 ""
        ++ ["99"; "101"; "133"; "134"; "135"]).
Proof.
  refine (proj1 (data_row_assembly
            (sample_row "Middle School only (7-8)")
            "Middle School only (7-8)"
            {| survey_type := "Middle School only (7-8)";
               reader := Single middle_only_reader |}
            (Some empty_record)
            (Some {| nt_class := DivisionAnswers;
                     nt_values := ["middle"; "91"; "92"; "93"; "94"; "95";
                                   "96"; "97"; "98"; "100"] |})
            (Some empty_record)
            (Some {| nt_class := WholeSchoolAnswers;
                     nt_values := ["99"; "101"; "133"; "134"; "135"] |})
            _ _ _ _ _ _ _ _ _ _ _));
    vm_compute; reflexivity.
Defined.

(** ** The pass over the rows *)

(** The loop writes the row of every input row in turn and leaves at the
    first exception. *)
Lemma run_invariant (rows : list (list string)) : ∀ i written,
  ∃ outs,
    fst (Cleaner.run i rows written) = written ++ outs
    ∧ (∀ (k : nat) out,
         outs !! k = Some out →
         ∃ row, rows !! k = Some row
                ∧ Cleaner.process_row (i + Z.of_nat k) row = Ok out)
    ∧ match snd (Cleaner.run i rows written) with
      | None => length outs = length rows
      | Some e =>
          ∃ row, rows !! length outs = Some row
                 ∧ Cleaner.process_row (i + Z.of_nat (length outs)) row
                   = Raise e
      end.
Proof.
  induction rows as [|row rows IH]; intros i written.
  - exists []. simpl. rewrite app_nil_r. repeat split. by intros k out.
  - cbn [Cleaner.run]. destruct (Cleaner.process_row i row) as [o|e] eqn:Hrow.
    + destruct (IH (i + 1) (written ++ [o])) as (outs & Hfst & Hk & Hsnd).
      exists (o :: outs). split; [by rewrite Hfst, <- app_assoc|]. split.
      * intros [|k] out Hout.
        -- injection Hout as <-. exists row. by rewrite Z.add_0_r.
        -- destruct (Hk k out Hout) as (r & Hr & Hp). exists r.
           split; [done|]. rewrite <- Hp. f_equal. lia.
      * destruct (snd (Cleaner.run (i + 1) rows (written ++ [o]))) as [e|].
        -- destruct Hsnd as (r & Hr & Hp). exists r. split; [done|].
           rewrite <- Hp. f_equal. simpl length. lia.
        -- simpl. by rewrite Hsnd.
    + exists []. simpl. rewrite app_nil_r. repeat split.
      * by intros k out.
      * exists row. by rewrite Z.add_0_r.
Qed.

(** X13: the pass writes one row per input row, in order, each the result
    of the loop body on the input row of the same index; an exception ends
    the pass at the first row that raises it, with the rows before it
    written and nothing after. *)
Theorem pass_stops_at_first_exception (rows : list (list string)) :
  ∃ outs,
    fst (Cleaner.init rows) = outs
    ∧ (∀ (k : nat) out,
         outs !! k = Some out →
         ∃ row, rows !! k = Some row
                ∧ Cleaner.process_row (Z.of_nat k) row = Ok out)
    ∧ match snd (Cleaner.init rows) with
      | None => length outs = length rows
      | Some e =>
          ∃ row, rows !! length outs = Some row
                 ∧ Cleaner.process_row (Z.of_nat (length outs)) row
                   = Raise e
      end.
Proof.
  unfold Cleaner.init.
  destruct (run_invariant rows 0 []) as (outs & Hfst & Hk & Hsnd).
  exists outs. split; [exact Hfst|]. split; [exact Hk | exact Hsnd].
Qed.

Lemma pass_stops_at_first_exception_witness :
  ∃ outs,
    fst (Cleaner.init [replicate 11 "h"; replicate 11 "q";
                       sample_row "no such survey";
                       sample_row "Grammar School only (K-6)"]) = outs
    ∧ length outs = 2%nat
    ∧ snd (Cleaner.init [replicate 11 "h"; replicate 11 "q";
                         sample_row "no such survey";
                         sample_row "Grammar School only (K-6)"])
      = Some (KeyError "no such survey").
Proof.
  destruct (pass_stops_at_first_exception
              [replicate 11 "h"; replicate 11 "q";
               sample_row "no such survey";
               sample_row "Grammar School only (K-6)"])
    as (outs & Hfst & _).
  exists outs. split; [exact Hfst|].
  rewrite <- Hfst. split; vm_compute; reflexivity.
Defined.

Lemma header_width (row labels : list string) :
  length labels = 32%nat →
  length (take 11 row ++ labels) = (Nat.min 11 (length row) + 32)%nat.
Proof. intros H. rewrite length_app, length_take, H. lia. Qed.

(** A header row is always written; a data row is written when it is well
    formed; the row written has the row's leading columns and 32 more. *)
Lemma process_row_written (i : Z) (row : list string) :
  (¬ (i = 0 ∨ i = 1) → well_formed_data_row row) →
  ∃ out,
    Cleaner.process_row i row = Ok out
    ∧ length out = (Nat.min 11 (length row) + 32)%nat.
Proof.
  intros Hdata. unfold Cleaner.process_row.
  destruct (i =? 0) eqn:E0; [|destruct (i =? 1) eqn:E1].
  - rewrite make_first_row_eq. eexists. split; [done|].
    by rewrite header_width.
  - rewrite make_second_row_eq. eexists. split; [done|].
    by rewrite header_width.
  - apply Z.eqb_neq in E0, E1.
    destruct Hdata as (entry & Hr & Hty & Hl); [lia|].
    destruct (make_data_row_Ok entry row Hty Hr Hl) as (out & Hout).
    exists out. split; [done|].
    destruct (make_data_row_prefix row out Hout) as (rest & -> & Hrest).
    by rewrite header_width.
Qed.

Lemma run_all_written (rows : list (list string)) : ∀ i written,
  (∀ (k : nat) row,
     rows !! k = Some row →
     ¬ (i + Z.of_nat k = 0 ∨ i + Z.of_nat k = 1) →
     well_formed_data_row row) →
  ∃ outs,
    Cleaner.run i rows written = (written ++ outs, None)
    ∧ Forall2 (λ row out,
                 length out = (Nat.min 11 (length row) + 32)%nat)
              rows outs.
Proof.
  induction rows as [|row rows IH]; intros i written Hwf.
  - exists []. simpl. by rewrite app_nil_r.
  - cbn [Cleaner.run].
    destruct (process_row_written i row) as (o & Ho & Hlen).
    { intros Hi. apply (Hwf 0%nat); [done|]. by rewrite Z.add_0_r. }
    rewrite Ho.
    destruct (IH (i + 1) (written ++ [o])) as (outs & Hrun & Hall).
    { intros k r Hr Hi. apply (Hwf (S k)); [done|].
      replace (i + Z.of_nat (S k)) with (i + 1 + Z.of_nat k) by lia. done. }
    exists (o :: outs). rewrite Hrun, <- app_assoc. split; [done|].
    by apply Forall2_cons.
Qed.

(** X14: when every row from the third on is a well-formed data row, the
    pass ends without an exception and writes one row per input row; each
    written row has the leading columns of its input row and 32 answer
    columns, so that all rows have 43 cells when the two header rows have
    at least 11. *)
Theorem pass_completes (rows : list (list string)) :
  Forall well_formed_data_row (drop 2 rows) →
  ∃ outs,
    Cleaner.init rows = (outs, None)
    ∧ length outs = length rows
    ∧ Forall2 (λ row out,
                 length out = (Nat.min 11 (length row) + 32)%nat)
              rows outs
    ∧ (Forall (λ row, 11 ≤ length row)%nat (take 2 rows) →
       Forall (λ out, length out = 43%nat) outs).
Proof.
  intros Hwf. unfold Cleaner.init.
  destruct (run_all_written rows 0 []) as (outs & Hrun & Hall).
  { intros k row Hrow Hk. rewrite Forall_forall in Hwf. apply Hwf.
    apply list_elem_of_lookup. exists (k - 2)%nat.
    rewrite lookup_drop. rewrite <- Hrow. f_equal. lia. }
  exists outs. split; [exact Hrun|].
  split; [symmetry; by eapply Forall2_length|].
  split; [exact Hall|].
  intros Hheaders. apply Forall_forall. intros out Hout.
  apply list_elem_of_lookup in Hout as (k & Hout).
  destruct (Forall2_lookup_r _ _ _ _ _ Hall Hout) as (row & Hrow & Hlen).
  rewrite Hlen.
  assert (11 ≤ length row)%nat; [|lia].
  destruct (decide (k < 2)%nat) as [Hk|Hk].
  - rewrite Forall_forall in Hheaders. apply Hheaders.
    apply list_elem_of_lookup. exists k. by rewrite lookup_take_lt.
  - rewrite Forall_forall in Hwf.
    assert (row ∈ drop 2 rows) as Hin.
    { apply list_elem_of_lookup. exists (k - 2)%nat.
      rewrite lookup_drop. rewrite <- Hrow. f_equal. lia. }
    destruct (Hwf row Hin) as (entry & _ & Hty & _).
    apply index_Ok_lt in Hty; [|done]. change (Z.to_nat ROW_INDEX_SURVEY_TYPE) with 10%nat in Hty. lia.
Qed.

Lemma pass_completes_witness :
  ∃ outs,
    Cleaner.init sample_table = (outs, None)
    ∧ length outs = 4%nat
    ∧ Forall (λ out, length out = 43%nat) outs.
Proof.
  destruct (pass_completes sample_table)
    as (outs & Hrun & Hlen & _ & Hwidth).
  - apply Forall_cons. split.
    + exists grammar_middle_entry.
      split; [|split]; vm_compute; reflexivity.
    + apply Forall_cons. split; [|by apply Forall_nil].
      exists grammar_only_entry.
      split; [|split]; vm_compute; reflexivity.
  - exists outs. split; [exact Hrun|]. split; [exact Hlen|].
    apply Hwidth. apply Forall_cons. split; [vm_compute; lia|].
    apply Forall_cons. split; [vm_compute; lia|]. by apply Forall_nil.
Defined.

(** ** Headers and data line up *)

Lemma map_each_cons_inv {A B : Type} (f : A → result B) (x : A)
    (xs : list A) (ys : list B) :
  map_each f (x :: xs) = Ok ys →
  ∃ y ys', f x = Ok y ∧ map_each f xs = Ok ys' ∧ ys = y :: ys'.
Proof.
  cbn [map_each]. intros H. apply bind_Ok in H as (y & Hy & H).
  apply bind_Ok in H as (ys' & Hys & H). injection H as <-. eauto.
Qed.

Lemma map_each_nil_inv {A B : Type} (f : A → result B) (ys : list B) :
  map_each f [] = Ok ys → ys = [].
Proof. intros H. by injection H as <-. Qed.

Ltac invert_map_each H :=
  repeat (let y := fresh "x" in
          let Hy := fresh "Hx" in
          apply map_each_cons_inv in H as (y & ? & Hy & H & ->));
  apply map_each_nil_inv in H as ->.

Lemma lookup_after_leading (row answers : list string) (p : nat) :
  (11 ≤ length row)%nat →
  (take 11 row ++ answers) !! (11 + p)%nat = answers !! p.
Proof.
  intros Hlen. rewrite lookup_app_r by (rewrite length_take; lia).
  f_equal. rewrite length_take. lia.
Qed.

(** X15: the two header rows are a key to every data row.  At each of the
    32 answer columns, the cell of a data row is the attribute that the
    second header names of the record that the first header names. *)
Theorem header_decoding (header1 header2 row : list string) (ty : string)
    (entry : SurveyReader) (g m h w : option namedtuple)
    (gd md hd wd : list string) :
  (11 ≤ length header1)%nat → (11 ≤ length header2)%nat →
  Py.index row ROW_INDEX_SURVEY_TYPE = Ok ty →
  SURVEY_READERS !! ty = Some entry →
  call (reader entry) row = Ok [g; m; h; w] →
  map_each (getattr g) DIVISION_DATA_ARGS = Ok gd →
  map_each (getattr m) DIVISION_DATA_ARGS = Ok md →
  map_each (getattr h) DIVISION_DATA_ARGS = Ok hd →
  map_each (getattr w) WHOLE_SCHOOL_ARGS = Ok wd →
  ∃ first second data,
    Cleaner.process_row 0 header1 = Ok first
    ∧ Cleaner.process_row 1 header2 = Ok second
    ∧ Cleaner.process_row 2 row = Ok data
    ∧ ∀ p : nat,
        (p < 32)%nat →
        ∃ label field x,
          first !! (11 + p)%nat = Some label
          ∧ second !! (11 + p)%nat = Some field
          ∧ data !! (11 + p)%nat = Some x
          ∧ (answers ← record_for [g; m; h; w] label; getattr answers field)
            = Ok x.
Proof.
  intros H1 H2 Hty Hentry Hcall Hg Hm Hh Hw.
  assert (11 ≤ length row)%nat as Hrow.
  { apply index_Ok_lt in Hty; [|done].
    change (Z.to_nat ROW_INDEX_SURVEY_TYPE) with 10%nat in Hty. lia. }
  change (Cleaner.process_row 0 header1) with (Cleaner.make_first_row header1).
  change (Cleaner.process_row 1 header2)
    with (Cleaner.make_second_row header2).
  change (Cleaner.process_row 2 row) with (Cleaner.make_data_row row).
  rewrite make_first_row_eq, make_second_row_eq.
  rewrite (make_data_row_eq row ty entry g m h w gd md hd wd) by done.
  eexists _, _, _. do 3 (split; [reflexivity|]).
  intros p Hp. rewrite !lookup_after_leading by done.
  unfold DIVISION_DATA_ARGS, WHOLE_SCHOOL_ARGS in *.
  invert_map_each Hg. invert_map_each Hm.
  invert_map_each Hh. invert_map_each Hw.
  do 32 (destruct p as [|p];
         [eexists _, _, _; do 3 (split; [reflexivity|]); assumption|]).
  lia.
Qed.

Lemma header_decoding_witness :
  ∃ first second data,
    Cleaner.process_row 0 (replicate 11 "h") = Ok first
    ∧ Cleaner.process_row 1 (replicate 11 "q") = Ok second
    ∧ Cleaner.process_row 2 (sample_row "Middle School only (7-8)") = Ok data
    ∧ first !! 29%nat = Some "high"
    ∧ second !! 29%nat = Some "eduction"
    ∧ data !! 29%nat = Some "".
Proof.
  destruct (header_decoding
              (replicate 11 "h") (replicate 11 "q")
              (sample_row "Middle School only (7-8)")
              "Middle School only (7-8)"
              {| survey_type := "Middle School only (7-8)";
                 reader := Single middle_only_reader |}
              (Some empty_record)
              (Some {| nt_class := DivisionAnswers;
                       nt_values := ["middle"; "91"; "92"; "93"; "94"; "95";
                                     "96"; "97"; "98"; "100"] |})
              (Some empty_record)
              (Some {| nt_class := WholeSchoolAnswers;
                       nt_values := ["99"; "101"; "133"; "134"; "135"] |})
              (replicate 9 "")
              ["91"; "92"; "93"; "94"; "95"; "96"; "97"; "98"; "100"]
              (replicate 9 "")
              ["99"; "101"; "133"; "134"; "135"])
    as (first & second & data & Hf & Hs & Hd & _);
    try (vm_compute; reflexivity); try (vm_compute; lia).
  exists first, second, data.
  split; [exact Hf|]. split; [exact Hs|]. split; [exact Hd|].
  vm_compute in Hf. injection Hf as <-.
  vm_compute in Hs. injection Hs as <-.
  vm_compute in Hd. injection Hd as <-.
  repeat split.
Defined.
